(** * whispers/fetchEarningsFromWhispers.mjs — a shallow embedding

    The script loads a JSON state file, fetches today's earnings results,
    posts one Discord embed per report that is not yet in the state, and
    writes the state back in a [finally] block.

    The embedding follows the script top to bottom:
    - [Num]: ECMAScript numbers (IEEE binary64, primitive floats) with
      [Number::toString], [Number.prototype.toFixed] and [StringToNumber];
    - [JSValue] and the abstract operations the script relies on
      ([ToBoolean], [ToString], [ToNumber], [===], property access);
    - the per-item code of the loop body ([exists_], [statusEmoji],
      [fmtMoney], the embed);
    - [loadState], [saveState] and [main] as functions of the outside world
      (environment variable, file system, HTTP answers, webhook, clock). *)

From Stdlib Require Import ZArith QArith Qround List String Ascii Bool Lia.
From Stdlib Require Import Floats DecimalString.
Import ListNotations.

Open Scope string_scope.
Open Scope Z_scope.

(* ================================================================== *)
(** * ECMAScript numbers *)
(* ================================================================== *)

Module Num.

(** Decimal digits of a non-negative integer, "0" for zero. *)
Definition digits (n : Z) : string :=
  NilZero.string_of_uint (N.to_uint (Z.to_N n)).

Fixpoint zeros (n : nat) : string :=
  match n with
  | O => ""
  | S n' => String "0" (zeros n')
  end.

Definition take (n : nat) (s : string) : string := substring 0 n s.
Definition drop (n : nat) (s : string) : string :=
  substring n (String.length s - n) s.

(** The exact value of a finite, non-zero binary64 number [m * 2^e]. *)
Definition exact (m : positive) (e : Z) : Q := inject_Z (Zpos m) * (2 ^ e)%Q.

(** Position of the decimal point: the [n] with [10^(n-1) <= x < 10^n],
    for [x > 0]. *)
Fixpoint scale_up (fuel : nat) (x : Q) (j : Z) : Z :=
  match fuel with
  | O => j
  | S fuel' =>
      if Qle_bool 1 x then j else scale_up fuel' (x * 10)%Q (j + 1)
  end.

Definition decimal_exponent (x : Q) : Z :=
  if Qle_bool 1 x
  then Z.of_nat (String.length (digits (Qfloor x)))
  else - scale_up 400 (x * 10)%Q 0.

(** Rounding interval of the binary64 number [m * 2^e]: every real strictly
    inside it is read back as that number, and the two end points are too
    when [m] is even (round to nearest, ties to even). *)
Definition lower_bound (m : positive) (e : Z) : Q :=
  if andb (Pos.eqb m 4503599627370496) (-1074 <? e)
  then inject_Z (4 * Zpos m - 1) * (2 ^ (e - 2))%Q
  else inject_Z (4 * Zpos m - 2) * (2 ^ (e - 2))%Q.

Definition upper_bound (m : positive) (e : Z) : Q :=
  inject_Z (4 * Zpos m + 2) * (2 ^ (e - 2))%Q.

Definition reads_back (m : positive) (e : Z) (c : Q) : bool :=
  if Z.even (Zpos m)
  then andb (Qle_bool (lower_bound m e) c) (Qle_bool c (upper_bound m e))
  else andb (negb (Qle_bool c (lower_bound m e)))
            (negb (Qle_bool (upper_bound m e) c)).

(** The candidate with [k] significant digits: [Some (s, q)] stands for the
    decimal [s * 10^q], the [k]-digit decimal closest to [x] that reads back
    as [x], if there is one. *)
Definition candidate (m : positive) (e : Z) (n0 : Z) (k : Z) : option (Z * Z) :=
  let x := exact m e in
  let q := n0 - k in
  let lo := Qfloor (x / (10 ^ q))%Q in
  let hi := lo + 1 in
  let vlo := (inject_Z lo * 10 ^ q)%Q in
  let vhi := (inject_Z hi * 10 ^ q)%Q in
  match reads_back m e vlo, reads_back m e vhi with
  | true, false => Some (lo, q)
  | false, true => Some (hi, q)
  | false, false => None
  | true, true =>
      match Qcompare (x - vlo) (vhi - x) with
      | Lt => Some (lo, q)
      | Gt => Some (hi, q)
      | Eq => if Z.even lo then Some (lo, q) else Some (hi, q)
      end
  end.

Fixpoint shortest (fuel : nat) (m : positive) (e : Z) (n0 : Z) (k : Z) : Z * Z :=
  match fuel with
  | O => (Qfloor (exact m e / (10 ^ (n0 - k)))%Q, n0 - k)
  | S fuel' =>
      match candidate m e n0 k with
      | Some sq => sq
      | None => shortest fuel' m e n0 (k + 1)
      end
  end.

(** A candidate that was rounded up to a power of ten carries zeros at its
    end; they are not significant digits. *)
Fixpoint strip_zeros (fuel : nat) (s q : Z) : Z * Z :=
  match fuel with
  | O => (s, q)
  | S fuel' =>
      if andb (0 <? s) (s mod 10 =? 0)
      then strip_zeros fuel' (s / 10) (q + 1)
      else (s, q)
  end.

Definition signed_exponent (z : Z) : string :=
  if z <? 0 then "-" ++ digits (- z) else "+" ++ digits z.

(** Number::toString for a finite positive number, steps 5 to 10 of
    ECMA-262 6.1.6.1.20: [s] are the [k] digits, [n] the position of the
    decimal point. *)
Definition render (s : string) (n : Z) : string :=
  let k := Z.of_nat (String.length s) in
  if andb (k <=? n) (n <=? 21) then
    s ++ zeros (Z.to_nat (n - k))
  else if andb (0 <? n) (n <=? 21) then
    take (Z.to_nat n) s ++ "." ++ drop (Z.to_nat n) s
  else if andb (-6 <? n) (n <=? 0) then
    "0." ++ zeros (Z.to_nat (- n)) ++ s
  else if k =? 1 then
    s ++ "e" ++ signed_exponent (n - 1)
  else
    take 1 s ++ "." ++ drop 1 s ++ "e" ++ signed_exponent (n - 1).

Definition toString_pos (m : positive) (e : Z) : string :=
  let n0 := decimal_exponent (exact m e) in
  let '(s, q) := shortest 17 m e n0 1 in
  let '(s, q) := strip_zeros 400 s q in
  let ds := digits s in
  render ds (q + Z.of_nat (String.length ds)).

(** Number::toString(x), radix 10. *)
Definition toString (x : float) : string :=
  match Prim2SF x with
  | S754_nan => "NaN"
  | S754_zero _ => "0"
  | S754_infinity false => "Infinity"
  | S754_infinity true => "-Infinity"
  | S754_finite false m e => toString_pos m e
  | S754_finite true m e => "-" ++ toString_pos m e
  end.

(** Number.prototype.toFixed(f) for [0 <= f <= 100], ECMA-262 21.1.3.3:
    [n] is the integer closest to [x * 10^f], the larger one on a tie. *)
Definition fixed_pos (m : positive) (e : Z) (f : nat) : string :=
  let x := exact m e in
  if Qle_bool (10 ^ 21) x then toString_pos m e
  else
    let n := Qfloor (x * 10 ^ (Z.of_nat f) + (1 # 2))%Q in
    let ds := digits n in
    match f with
    | O => ds
    | _ =>
        let ds := zeros (S f - String.length ds) ++ ds in
        let k := String.length ds in
        take (k - f) ds ++ "." ++ drop (k - f) ds
    end.

Definition toFixed (x : float) (f : nat) : string :=
  match Prim2SF x with
  | S754_nan => "NaN"
  | S754_infinity false => "Infinity"
  | S754_infinity true => "-Infinity"
  | S754_zero _ =>
      match f with O => "0" | _ => "0." ++ zeros f end
  | S754_finite false m e => fixed_pos m e f
  | S754_finite true m e => "-" ++ fixed_pos m e f
  end.

(** Finite and of magnitude below [10^21]: the numbers that [toFixed]
    writes with a decimal point rather than an exponent. *)
Definition fixed_range (x : float) : bool :=
  match Prim2SF x with
  | S754_zero _ => true
  | S754_finite _ m e => negb (Qle_bool (10 ^ 21) (exact m e))
  | _ => false
  end.

(** The binary64 number closest to [(-1)^neg * mant * 10^e10], ties to
    even: the rounding of numeric literals, in [JSON.parse] and in
    StringToNumber alike. *)
Definition of_decimal (neg : bool) (mant : Z) (e10 : Z) : float :=
  match mant with
  | Zpos p =>
      if 0 <=? e10 then
        SF2Prim (binary_round prec emax neg (p * Z.to_pos (10 ^ e10))%positive 0)
      else
        let d := 10 ^ (- e10) in
        let s := Z.log2_up d + 1100 in
        let q := (Zpos p * 2 ^ s) / d in
        let r := (Zpos p * 2 ^ s) mod d in
        let q' := if r =? 0 then 2 * q else 2 * q + 1 in
        SF2Prim (binary_round prec emax neg (Z.to_pos q') (- s - 1))
  | _ => if neg then neg_zero else zero
  end.

Definition of_Z (z : Z) : float := of_decimal (z <? 0) (Z.abs z) 0.

(** ** StringToNumber (ECMA-262 7.1.4.1.1)

    Strings are kept as their UTF-8 bytes, so the white space and line
    terminator code points are recognised by their encodings. *)

Definition code (c : ascii) : Z := Z.of_N (N_of_ascii c).

Definition is_ascii_space (c : ascii) : bool :=
  let n := code c in
  orb (andb (9 <=? n) (n <=? 13)) (n =? 32).

(** [Some rest] when the string starts with a StrWhiteSpaceChar. *)
Definition white_space (s : string) : option string :=
  match s with
  | String c1 r1 =>
      if is_ascii_space c1 then Some r1 else
      match r1 with
      | String c2 r2 =>
          if andb (code c1 =? 194) (code c2 =? 160) then Some r2 else
          match r2 with
          | String c3 r3 =>
              let b1 := code c1 in let b2 := code c2 in let b3 := code c3 in
              if orb (andb (b1 =? 225) (andb (b2 =? 154) (b3 =? 128)))
                 (orb (andb (b1 =? 226) (andb (b2 =? 128)
                         (orb (andb (128 <=? b3) (b3 <=? 138))
                              (orb (b3 =? 168) (orb (b3 =? 169) (b3 =? 175))))))
                 (orb (andb (b1 =? 226) (andb (b2 =? 129) (b3 =? 159)))
                 (orb (andb (b1 =? 227) (andb (b2 =? 128) (b3 =? 128)))
                      (andb (b1 =? 239) (andb (b2 =? 187) (b3 =? 191))))))
              then Some r3 else None
          | _ => None
          end
      | _ => None
      end
  | _ => None
  end.

Fixpoint trim_start (fuel : nat) (s : string) : string :=
  match fuel with
  | O => s
  | S fuel' =>
      match white_space s with
      | Some r => trim_start fuel' r
      | None => s
      end
  end.

Definition only_space (s : string) : bool :=
  String.eqb (trim_start (String.length s) s) "".

Fixpoint trim_end (s : string) : string :=
  match s with
  | "" => ""
  | String c r => if only_space s then "" else String c (trim_end r)
  end.

Definition trim (s : string) : string :=
  trim_end (trim_start (String.length s) s).

Definition digit (base : Z) (c : ascii) : option Z :=
  let n := code c in
  let v := if andb (48 <=? n) (n <=? 57) then n - 48
           else if andb (97 <=? n) (n <=? 102) then n - 87
           else if andb (65 <=? n) (n <=? 70) then n - 55
           else base in
  if v <? base then Some v else None.

(** The longest run of digits at the start of [s]: its value on top of
    [acc], its length added to [cnt], and what follows it. *)
Fixpoint read_digits (base : Z) (s : string) (acc cnt : Z) : Z * Z * string :=
  match s with
  | String c r =>
      match digit base c with
      | Some d => read_digits base r (acc * base + d) (cnt + 1)
      | None => (acc, cnt, s)
      end
  | "" => (acc, cnt, s)
  end.

(** ExponentPart_opt at the end of a literal: [Some e], or [None] when what
    is left is not an exponent part. *)
Definition exponent_part (s : string) : option Z :=
  match s with
  | "" => Some 0
  | String c r =>
      if orb (Ascii.eqb c "e") (Ascii.eqb c "E") then
        let '(neg, r) :=
          match r with
          | String "-" r' => (true, r')
          | String "+" r' => (false, r')
          | _ => (false, r)
          end in
        let '(ex, n, rest) := read_digits 10 r 0 0 in
        if andb (0 <? n) (String.eqb rest "")
        then Some (if neg then - ex else ex)
        else None
      else None
  end.

(** StrUnsignedDecimalLiteral. *)
Definition unsigned_decimal (neg : bool) (s : string) : float :=
  if String.eqb s "Infinity" then (if neg then neg_infinity else infinity)
  else
    let '(i, ni, r1) := read_digits 10 s 0 0 in
    let '(m, nf, r2) :=
      match r1 with
      | String "." r => read_digits 10 r i 0
      | _ => (i, 0, r1)
      end in
    if ni + nf =? 0 then nan
    else match exponent_part r2 with
         | Some ex => of_decimal neg m (ex - nf)
         | None => nan
         end.

(** NonDecimalIntegerLiteral: the digits after the two-character prefix. *)
Definition radix_literal (base : Z) (s : string) : float :=
  let '(v, n, rest) := read_digits base s 0 0 in
  if andb (0 <? n) (String.eqb rest "") then of_decimal false v 0 else nan.

Definition StringToNumber (str : string) : float :=
  match trim str with
  | "" => zero
  | String "0" (String "x" r) | String "0" (String "X" r) => radix_literal 16 r
  | String "0" (String "o" r) | String "0" (String "O" r) => radix_literal 8 r
  | String "0" (String "b" r) | String "0" (String "B" r) => radix_literal 2 r
  | String "+" r => unsigned_decimal false r
  | String "-" r => unsigned_decimal true r
  | s => unsigned_decimal false s
  end.

End Num.

(* ================================================================== *)
(** * Values and exceptions *)
(* ================================================================== *)

#[local] Set Warnings "-register-all".

(** What [JSON.parse] and [axios] hand to the script, and [undefined],
    which reading a missing property yields.  An object is the list of its
    own properties; strings are kept as their UTF-8 bytes. *)
Inductive JSValue : Type :=
  | JUndefined
  | JNull
  | JBool (b : bool)
  | JNum (x : float)
  | JStr (s : string)
  | JArr (items : list JSValue)
  | JObj (props : list (string * JSValue)).

(** A thrown value: a [TypeError] or [SyntaxError] raised by the language
    itself, or the rejection of a promise by one of the libraries (axios,
    discord.js, fs). *)
Inductive JSError : Type :=
  | TypeError (msg : string)
  | SyntaxError (msg : string)
  | Rejected (by_ : string).

Inductive Result (A : Type) : Type :=
  | Ok (a : A)
  | Throw (e : JSError).

Arguments Ok {A} a.
Arguments Throw {A} e.

Definition bind {A B : Type} (r : Result A) (k : A -> Result B) : Result B :=
  match r with
  | Ok a => k a
  | Throw e => Throw e
  end.

Declare Scope js_scope.
Delimit Scope js_scope with js.
Notation "x <- r ;; k" := (bind r (fun x => k))
  (at level 61, r at next level, right associativity) : js_scope.
Notation "' p <- r ;; k" := (bind r (fun x => let 'p := x in k))
  (at level 61, p pattern, r at next level, right associativity) : js_scope.
Open Scope js_scope.

Definition succeeded {A : Type} (r : Result A) : bool :=
  match r with Ok _ => true | Throw _ => false end.

(* ================================================================== *)
(** * Abstract operations of the language *)
(* ================================================================== *)

Definition isNullish (v : JSValue) : bool :=
  match v with
  | JUndefined | JNull => true
  | _ => false
  end.

(** ToBoolean. *)
Definition ToBoolean (v : JSValue) : bool :=
  match v with
  | JUndefined | JNull => false
  | JBool b => b
  | JNum x => negb (orb (is_zero x) (is_nan x))
  | JStr s => negb (String.eqb s "")
  | JArr _ | JObj _ => true
  end.

Fixpoint lookup (k : string) (props : list (string * JSValue)) : option JSValue :=
  match props with
  | [] => None
  | (k', v) :: rest => if String.eqb k k' then Some v else lookup k rest
  end.

(** [v.k] for the property names the script reads.  None of them is an
    index, ["length"], or a member of a built-in prototype, so on a
    primitive or an array the result is [undefined], and on an object it is
    the own property if there is one.  Reading from [null] or [undefined]
    throws. *)
Definition getProp (v : JSValue) (k : string) : Result JSValue :=
  match v with
  | JUndefined =>
      Throw (TypeError ("Cannot read properties of undefined (reading '" ++ k ++ "')"))
  | JNull =>
      Throw (TypeError ("Cannot read properties of null (reading '" ++ k ++ "')"))
  | JObj props =>
      match lookup k props with
      | Some x => Ok x
      | None => Ok JUndefined
      end
  | _ => Ok JUndefined
  end.

(** [a === b].  Two objects or two arrays are equal only when they are the
    same allocation; [JSON.parse] allocates every object afresh and the
    script never compares a value with itself, so here they never are. *)
Definition strictEq (a b : JSValue) : bool :=
  match a, b with
  | JUndefined, JUndefined => true
  | JNull, JNull => true
  | JBool x, JBool y => Bool.eqb x y
  | JNum x, JNum y => PrimFloat.eqb x y
  | JStr x, JStr y => String.eqb x y
  | _, _ => false
  end.

(** SameValueZero, as [Array.prototype.includes] compares. *)
Definition sameValueZero (a b : JSValue) : bool :=
  match a, b with
  | JNum x, JNum y => orb (PrimFloat.eqb x y) (andb (is_nan x) (is_nan y))
  | _, _ => strictEq a b
  end.

(** ToString.  An array is joined with commas, [null] and [undefined]
    elements giving the empty string; an object is ["[object Object]"]
    unless an own ["toString"] property (never callable in parsed JSON)
    hides [Object.prototype.toString], in which case OrdinaryToPrimitive
    finds no primitive and throws. *)
Fixpoint ToString (v : JSValue) : Result string :=
  match v with
  | JUndefined => Ok "undefined"
  | JNull => Ok "null"
  | JBool true => Ok "true"
  | JBool false => Ok "false"
  | JNum x => Ok (Num.toString x)
  | JStr s => Ok s
  | JArr items =>
      (fix join (first : bool) (l : list JSValue) {struct l} : Result string :=
         match l with
         | [] => Ok ""
         | x :: l' =>
             s <- (if isNullish x then Ok "" else ToString x) ;;
             r <- join false l' ;;
             Ok ((if first then "" else ",") ++ s ++ r)
         end) true items
  | JObj props =>
      match lookup "toString" props with
      | Some _ => Throw (TypeError "Cannot convert object to primitive value")
      | None => Ok "[object Object]"
      end
  end.

(** ToPrimitive: a primitive is left alone; an array or object goes through
    [valueOf], which returns the object itself, and then [toString]. *)
Definition ToPrimitive (v : JSValue) : Result JSValue :=
  match v with
  | JArr _ | JObj _ => s <- ToString v ;; Ok (JStr s)
  | _ => Ok v
  end.

(** ToNumber. *)
Definition ToNumber (v : JSValue) : Result float :=
  p <- ToPrimitive v ;;
  Ok match p with
     | JUndefined => nan
     | JNull => zero
     | JBool true => one
     | JBool false => zero
     | JNum x => x
     | JStr s => Num.StringToNumber s
     | _ => nan
     end.

(** [needle] occurs in [s]: String.prototype.includes. *)
Fixpoint includes (s needle : string) : bool :=
  if prefix needle s then true
  else match s with
       | "" => false
       | String _ r => includes r needle
       end.

(** [v?.includes(needle)]: [undefined] when [v] is nullish; the substring
    test on a string; the membership test on an array; on anything else
    [includes] is not a function. *)
Definition optIncludes (v : JSValue) (needle : string) : Result JSValue :=
  match v with
  | JUndefined | JNull => Ok JUndefined
  | JStr s => Ok (JBool (includes s needle))
  | JArr items => Ok (JBool (existsb (fun x => sameValueZero x (JStr needle)) items))
  | _ => Throw (TypeError "item.subject?.includes is not a function")
  end.

(** [a || b], with [b] evaluated only when [a] is falsy. *)
Definition or_else (a : JSValue) (b : Result JSValue) : Result JSValue :=
  if ToBoolean a then Ok a else b.

(* ================================================================== *)
(** * JSON.parse *)
(* ================================================================== *)

Module JSON.

Definition opt_bind {A B : Type} (o : option A) (k : A -> option B) : option B :=
  match o with
  | Some a => k a
  | None => None
  end.

Definition is_ws (c : ascii) : bool :=
  let n := Num.code c in
  orb (orb (n =? 32) (n =? 9)) (orb (n =? 10) (n =? 13)).

Fixpoint skip_ws (s : string) : string :=
  match s with
  | String c r => if is_ws c then skip_ws r else s
  | "" => ""
  end.

Definition literal (word : string) (v : JSValue) (s : string)
  : option (JSValue * string) :=
  if prefix word s then Some (v, Num.drop (String.length word) s) else None.

(** A number: an optional minus sign; a zero, or a digit other than zero
    and any digits; optionally a point and at least one digit; optionally
    an exponent of at least one digit, with or without a sign. *)
Definition number (s : string) : option (JSValue * string) :=
  let '(neg, s1) :=
    match s with
    | String "-" r => (true, r)
    | _ => (false, s)
    end in
  match s1 with
  | "" => None
  | String c r =>
      opt_bind (Num.digit 10 c) (fun d =>
      let '(i, _, r1) := if d =? 0 then (0, 1, r) else Num.read_digits 10 s1 0 0 in
      opt_bind
        match r1 with
        | String "." r2 =>
            let '(m, nf, r3) := Num.read_digits 10 r2 i 0 in
            if nf =? 0 then None else Some (m, nf, r3)
        | _ => Some (i, 0, r1)
        end (fun '(m, nf, r3) =>
      match r3 with
      | String "e" r4 | String "E" r4 =>
          let '(eneg, r5) :=
            match r4 with
            | String "-" r' => (true, r')
            | String "+" r' => (false, r')
            | _ => (false, r4)
            end in
          let '(ex, ne, r6) := Num.read_digits 10 r5 0 0 in
          if ne =? 0 then None
          else Some (JNum (Num.of_decimal neg m ((if eneg then - ex else ex) - nf)), r6)
      | _ => Some (JNum (Num.of_decimal neg m (- nf)), r3)
      end))
  end.

Definition byte (n : Z) : ascii := ascii_of_N (Z.to_N n).

(** The UTF-8 bytes of a code point (of a lone surrogate too). *)
Definition utf8 (cp : Z) : string :=
  if cp <? 128 then String (byte cp) ""
  else if cp <? 2048 then
    String (byte (192 + cp / 64)) (String (byte (128 + cp mod 64)) "")
  else if cp <? 65536 then
    String (byte (224 + cp / 4096))
      (String (byte (128 + (cp / 64) mod 64)) (String (byte (128 + cp mod 64)) ""))
  else
    String (byte (240 + cp / 262144))
      (String (byte (128 + (cp / 4096) mod 64))
         (String (byte (128 + (cp / 64) mod 64)) (String (byte (128 + cp mod 64)) ""))).

Definition hex4 (a b c d : ascii) : option Z :=
  opt_bind (Num.digit 16 a) (fun x3 =>
  opt_bind (Num.digit 16 b) (fun x2 =>
  opt_bind (Num.digit 16 c) (fun x1 =>
  opt_bind (Num.digit 16 d) (fun x0 =>
  Some (((x3 * 16 + x2) * 16 + x1) * 16 + x0))))).

Definition simple_escape (e : ascii) : option ascii :=
  let n := Num.code e in
  if orb (n =? 34) (orb (n =? 92) (n =? 47)) then Some e
  else if n =? 98 then Some (byte 8)
  else if n =? 102 then Some (byte 12)
  else if n =? 110 then Some (byte 10)
  else if n =? 114 then Some (byte 13)
  else if n =? 116 then Some (byte 9)
  else None.

(** The characters of a string literal after its opening quote, up to and
    including the closing quote: the string denoted and what follows. *)
Fixpoint chars (s : string) : option (string * string) :=
  match s with
  | "" => None
  | String c r =>
      let n := Num.code c in
      if n =? 34 then Some ("", r)
      else if n <? 32 then None
      else if n =? 92 then
        match r with
        | String "u" (String h1 (String h2 (String h3 (String h4 r6)))) =>
            opt_bind (hex4 h1 h2 h3 h4) (fun hi =>
            let lone :=
              opt_bind (chars r6) (fun '(t, rest) => Some (utf8 hi ++ t, rest)) in
            if andb (55296 <=? hi) (hi <=? 56319) then
              match r6 with
              | String b (String "u" (String l1 (String l2 (String l3 (String l4 r12))))) =>
                  match hex4 l1 l2 l3 l4 with
                  | Some lo =>
                      if andb (Num.code b =? 92) (andb (56320 <=? lo) (lo <=? 57343)) then
                        opt_bind (chars r12) (fun '(t, rest) =>
                        Some (utf8 (65536 + (hi - 55296) * 1024 + (lo - 56320)) ++ t, rest))
                      else lone
                  | None => lone
                  end
              | _ => lone
              end
            else lone)
        | String e r2 =>
            opt_bind (simple_escape e) (fun x =>
            opt_bind (chars r2) (fun '(t, rest) => Some (String x t, rest)))
        | "" => None
        end
      else opt_bind (chars r) (fun '(t, rest) => Some (String c t, rest))
  end.

(** The elements of a non-empty array after its bracket, [value] parsing
    one of them. *)
Fixpoint elements (fuel : nat) (value : string -> option (JSValue * string))
    (s : string) : option (list JSValue * string) :=
  match fuel with
  | O => None
  | S fuel' =>
      opt_bind (value s) (fun '(v, r) =>
      match skip_ws r with
      | String "," r' =>
          opt_bind (elements fuel' value r') (fun '(vs, rest) => Some (v :: vs, rest))
      | String "]" r' => Some ([v], r')
      | _ => None
      end)
  end.

(** A later member replaces an earlier one of the same name. *)
Fixpoint setProp (k : string) (v : JSValue) (props : list (string * JSValue))
  : list (string * JSValue) :=
  match props with
  | [] => [(k, v)]
  | (k', v') :: rest =>
      if String.eqb k k' then (k, v) :: rest else (k', v') :: setProp k v rest
  end.

(** The members of a non-empty object after its brace, added to [acc]. *)
Fixpoint members (fuel : nat) (value : string -> option (JSValue * string))
    (acc : list (string * JSValue)) (s : string)
  : option (list (string * JSValue) * string) :=
  match fuel with
  | O => None
  | S fuel' =>
      match skip_ws s with
      | String q r =>
          if Num.code q =? 34 then
            opt_bind (chars r) (fun '(k, r1) =>
            match skip_ws r1 with
            | String ":" r2 =>
                opt_bind (value r2) (fun '(v, r3) =>
                let acc' := setProp k v acc in
                match skip_ws r3 with
                | String "," r4 => members fuel' value acc' r4
                | String "}" r4 => Some (acc', r4)
                | _ => None
                end)
            | _ => None
            end)
          else None
      | "" => None
      end
  end.

Fixpoint value (fuel : nat) (s : string) : option (JSValue * string) :=
  match fuel with
  | O => None
  | S fuel' =>
      match skip_ws s with
      | "" => None
      | String c r as s' =>
          let n := Num.code c in
          if n =? 91 then
            match skip_ws r with
            | String "]" r' => Some (JArr [], r')
            | _ =>
                opt_bind (elements (String.length r) (value fuel') r)
                  (fun '(vs, rest) => Some (JArr vs, rest))
            end
          else if n =? 123 then
            match skip_ws r with
            | String "}" r' => Some (JObj [], r')
            | _ =>
                opt_bind (members (String.length r) (value fuel') [] r)
                  (fun '(ps, rest) => Some (JObj ps, rest))
            end
          else if n =? 34 then
            opt_bind (chars r) (fun '(t, rest) => Some (JStr t, rest))
          else if n =? 116 then literal "true" (JBool true) s'
          else if n =? 102 then literal "false" (JBool false) s'
          else if n =? 110 then literal "null" JNull s'
          else number s'
      end
  end.

(** [JSON.parse(text)]: one value, white space around it, nothing else. *)
Definition parse (text : string) : Result JSValue :=
  match value (S (String.length text)) text with
  | Some (v, rest) =>
      if String.eqb (skip_ws rest) "" then Ok v
      else Throw (SyntaxError "Unexpected non-whitespace character after JSON")
  | None => Throw (SyntaxError "Unexpected token in JSON")
  end.

End JSON.

(* ================================================================== *)
(** * The loop body, lines 66 to 183 *)
(* ================================================================== *)

(** ** The dedup scan, lines 67 to 70 *)

(** The callback of [state.some]:
    [e.epsDate === item.epsDate && e.ticker === item.ticker]. *)
Definition sameReport (item e : JSValue) : Result bool :=
  d1 <- getProp e "epsDate" ;;
  d2 <- getProp item "epsDate" ;;
  if strictEq d1 d2 then
    t1 <- getProp e "ticker" ;;
    t2 <- getProp item "ticker" ;;
    Ok (strictEq t1 t2)
  else Ok false.

(** Array.prototype.some: the callback runs on the elements in order and
    the scan stops at the first [true]; an exception of the callback ends
    it. *)
Fixpoint some (f : JSValue -> Result bool) (l : list JSValue) : Result bool :=
  match l with
  | [] => Ok false
  | e :: rest =>
      b <- f e ;;
      if b then Ok true else some f rest
  end.

(** [state.some(...)] on whatever [loadState] returned: only an array has
    the method. *)
Definition exists_ (state item : JSValue) : Result bool :=
  match state with
  | JArr st => some (sameReport item) st
  | JNull =>
      Throw (TypeError "Cannot read properties of null (reading 'some')")
  | JUndefined =>
      Throw (TypeError "Cannot read properties of undefined (reading 'some')")
  | _ => Throw (TypeError "state.some is not a function")
  end.

(** ** statusEmoji, lines 72 to 79 *)

Definition green_circle : string := "🟢".
Definition red_circle : string := "🔴".
Definition blue_circle : string := "🔵".

(** [item.subject?.includes(a) || item.subject?.includes(b)]. *)
Definition subjectHas (item : JSValue) (a b : string) : Result JSValue :=
  s1 <- getProp item "subject" ;;
  r1 <- optIncludes s1 a ;;
  or_else r1 (s2 <- getProp item "subject" ;; optIncludes s2 b).

Definition statusEmoji (item : JSValue) : Result string :=
  beat <- subjectHas item "Beat Expectations" "Beat Consensus Estimates" ;;
  if ToBoolean beat then Ok green_circle
  else
    missed <- subjectHas item "Missed Expectations" "Missed Consensus Estimates" ;;
    if ToBoolean missed then Ok red_circle else Ok blue_circle.

(** ** fmtMoney, lines 81 to 88 *)

(** [m > 999] and [m >= 1] compare [ToNumber m] and are false on [NaN];
    [m / 1000] and [m * 1000] are numbers whatever [m] is, but [m.toFixed]
    exists only when [m] itself is a number. *)
Definition fmtMoney (m : JSValue) : Result string :=
  if isNullish m then Ok "N/A"
  else
    x <- ToNumber m ;;
    if PrimFloat.ltb 999 x then
      Ok ("$" ++ Num.toFixed (PrimFloat.div x 1000) 2 ++ "B")
    else if PrimFloat.leb 1 x then
      match m with
      | JNum _ => Ok ("$" ++ Num.toFixed x 2 ++ "M")
      | _ => Throw (TypeError "m.toFixed is not a function")
      end
    else
      Ok ("$" ++ Num.toFixed (PrimFloat.mul x 1000) 2 ++ "K").

(** ** The embed, lines 90 to 173 *)

(** [v != null ? `${before}${(v * 100).toFixed(f)}%` : "N/A"], the shape of
    the four percentage fields. *)
Definition percentage (before : string) (f : nat) (v : JSValue) : Result string :=
  if isNullish v then Ok "N/A"
  else
    x <- ToNumber v ;;
    Ok (before ++ Num.toFixed (PrimFloat.mul x 100) f ++ "%").

(** [s.replace(/<br \/>/g, "\n")] and, in general, replacing every
    occurrence of a literal, left to right, without overlap.  [skip] counts
    the characters of a match that are still to be dropped. *)
Fixpoint replaceAll (skip : nat) (pat rep s : string) : string :=
  match s with
  | "" => ""
  | String c r =>
      match skip with
      | S k => replaceAll k pat rep r
      | O =>
          if prefix pat s
          then rep ++ replaceAll (String.length pat - 1) pat rep r
          else String c (replaceAll 0 pat rep r)
      end
  end.

Definition newline : string := String (ascii_of_nat 10) "".

(** The longest run of characters other than [stop] at the start of [s],
    and what follows it. *)
Fixpoint run_until (stop : ascii) (s : string) : string * string :=
  match s with
  | "" => ("", "")
  | String c r =>
      if Ascii.eqb c stop then ("", s)
      else let '(run, rest) := run_until stop r in (String c run, rest)
  end.

(** A match of [/<a [^>]+>([^<]+)<\/a>/] at the start of [s]: the capture
    and the length of the match.  Both classes exclude the character that
    must follow them, so the greedy runs are the only way to match. *)
Definition anchor (s : string) : option (string * nat) :=
  if prefix "<a " s then
    let '(attrs, r1) := run_until ">" (Num.drop 3 s) in
    match attrs, r1 with
    | String _ _, String _ r2 =>
        let '(text, r3) := run_until "<" r2 in
        match text with
        | String _ _ =>
            if prefix "</a>" r3
            then Some (text, 3 + String.length attrs + 1 + String.length text + 4)%nat
            else None
        | "" => None
        end
    | _, _ => None
    end
  else None.

(** [s.replace(/<a [^>]+>([^<]+)<\/a>/g, "[$1]")]. *)
Fixpoint replaceAnchors (skip : nat) (s : string) : string :=
  match s with
  | "" => ""
  | String c r =>
      match skip with
      | S k => replaceAnchors k r
      | O =>
          match anchor s with
          | Some (text, len) => "[" ++ text ++ "]" ++ replaceAnchors (len - 1) r
          | None => String c (replaceAnchors 0 r)
          end
      end
  end.

(** [(item.summary || "").replace(...).replace(...)]: a truthy summary that
    is not a string has no [replace]. *)
Definition description_of (summary : JSValue) : Result string :=
  match (if ToBoolean summary then summary else JStr "") with
  | JStr s => Ok (replaceAnchors 0 (replaceAll 0 "<br />" newline s))
  | _ => Throw (TypeError "item.summary.replace is not a function")
  end.

(** One entry of [addFields]. *)
Record Field : Type := mkField {
  name : string;
  value : JSValue;
  inline : bool
}.

(** What the [EmbedBuilder] chain is given, setter by setter.  The
    [timestamp] is the reading of the clock that [setTimestamp()] takes. *)
Record Embed : Type := mkEmbed {
  color : Z;
  title : string;
  url : string;
  author : JSValue;
  fields : list Field;
  description : string;
  footer : string;
  timestamp : Z
}.

(** What formatting takes from the host rather than from the record:
    [dateString v] is [new Date(v).toLocaleString()] for a primitive [v], in
    the locale and time zone of the process; [now] is [Date.now()]. *)
Record Host : Type := mkHost {
  dateString : JSValue -> string;
  now : Z
}.

(** Lines 72 to 173: everything between the dedup scan and
    [webhook.send], in evaluation order. *)
Definition format (h : Host) (item : JSValue) : Result Embed :=
  emoji <- statusEmoji item ;;
  ticker <- getProp item "ticker" ;;
  tickerS <- ToString ticker ;;
  subject <- getProp item "subject" ;;
  subjectS <- ToString subject ;;
  let title := emoji ++ " " ++ tickerS ++ " — " ++ subjectS in
  ticker2 <- getProp item "ticker" ;;
  ticker2S <- ToString ticker2 ;;
  let url := "https://www.earningswhispers.com/epsdetails/" ++ ticker2S in
  nm <- getProp item "name" ;;
  author <- or_else nm (getProp item "ticker") ;;
  epsDate <- getProp item "epsDate" ;;
  epsDateP <- ToPrimitive epsDate ;;
  eps <- getProp item "eps" ;;
  epsS <- ToString eps ;;
  estimate <- getProp item "estimate" ;;
  estimateS <- ToString estimate ;;
  whisper <- getProp item "whisper" ;;
  whisperS <- ToString whisper ;;
  revenue <- getProp item "revenue" ;;
  revenueS <- fmtMoney revenue ;;
  revenueEstimate <- getProp item "revenueEstimate" ;;
  revenueEstimateS <- fmtMoney revenueEstimate ;;
  earningsSurprise <- getProp item "earningsSurprise" ;;
  earningsSurpriseS <- percentage "EPS " 2 earningsSurprise ;;
  revenueSurprise <- getProp item "revenueSurprise" ;;
  revenueSurpriseS <- percentage "" 2 revenueSurprise ;;
  prevEarningsGrowth <- getProp item "prevEarningsGrowth" ;;
  prevEarningsGrowthS <- percentage "" 1 prevEarningsGrowth ;;
  prevRevenueGrowth <- getProp item "prevRevenueGrowth" ;;
  prevRevenueGrowthS <- percentage "" 1 prevRevenueGrowth ;;
  highEstimate <- getProp item "highEstimate" ;;
  highEstimateS <- ToString highEstimate ;;
  lowEstimate <- getProp item "lowEstimate" ;;
  lowEstimateS <- ToString lowEstimate ;;
  ewGrade <- getProp item "ewGrade" ;;
  ewGradeV <- or_else ewGrade (Ok (JStr "N/A")) ;;
  pwrRating <- getProp item "pwrRating" ;;
  pwrRatingV <- or_else pwrRating (Ok (JStr "N/A")) ;;
  fileName <- getProp item "fileName" ;;
  call <- (if ToBoolean fileName
           then fileName2 <- getProp item "fileName" ;;
                fileNameS <- ToString fileName2 ;;
                Ok ("[Link](https://app.webinar.net/" ++ fileNameS ++ ")")
           else Ok "N/A") ;;
  summary <- getProp item "summary" ;;
  descr <- description_of summary ;;
  Ok {|
    color := 1752220;
    title := title;
    url := url;
    author := author;
    fields :=
      [ mkField "Earnings Date" (JStr (dateString h epsDateP)) true;
        mkField "EPS (est/whisp)"
          (JStr (epsS ++ " (Estimate: " ++ estimateS ++ " / Whisper: " ++ whisperS ++ ")"))
          true;
        mkField "Revenue" (JStr revenueS) true;
        mkField "Revenue Estimate" (JStr revenueEstimateS) true;
        mkField "Earnings Surprise %" (JStr earningsSurpriseS) true;
        mkField "Revenue Surprise %" (JStr revenueSurpriseS) true;
        mkField "Previous Earnings Growth" (JStr prevEarningsGrowthS) true;
        mkField "Previous Revenue Growth" (JStr prevRevenueGrowthS) true;
        mkField "High / Low Est." (JStr (highEstimateS ++ " / " ++ lowEstimateS)) true;
        mkField "Earnings Whispers Grade" ewGradeV true;
        mkField "Power Rating" pwrRatingV true;
        mkField "Conference Call" (JStr call) true ];
    description := descr;
    footer := "Source: Earnings Whispers";
    timestamp := now h
  |}.

(* ================================================================== *)
(** * The script as a function of the outside world *)
(* ================================================================== *)

(** Everything a run takes from outside: the environment variable, the
    outcome of [new WebhookClient] (line 18), of reading the state file, of
    the two requests, and of writing the state file.  [send k e] is the
    outcome of the [k]-th call of [webhook.send] (counting from 0) when it
    is given the embed [e]: it stands for all of discord.js, the checks of
    the builder and the HTTP post alike.  [clock k] is [Date.now()] while
    the [k]-th embed is built, and [toLocaleString v] is
    [new Date(v).toLocaleString()] in the locale and time zone of the
    process. *)
Record World : Type := mkWorld {
  DISCORD_EARNINGS_WEBHOOK : option string;
  newWebhookClient : Result unit;
  readFile : Result string;
  warmup : Result unit;
  todaysresults : Result JSValue;
  toLocaleString : JSValue -> string;
  clock : nat -> Z;
  send : nat -> Embed -> Result unit;
  writeFile : JSValue -> Result unit
}.

(** What a run does, in order.  [Format item] marks that lines 72 to 173
    ran for [item]; [Send item e] is the call [webhook.send] with the embed
    of [item]; [Posted], [Saving], [StateSaved] and [Total] are the lines
    that [console.log] prints; [WriteFile state] is the call of
    [fs.writeFile] with [JSON.stringify(state, null, 2)]; [Uncaught] is an
    exception that no handler takes. *)
Inductive Event : Type :=
  | Get (url : string)
  | Format (item : JSValue)
  | Send (item : JSValue) (e : Embed)
  | Posted (line : string)
  | Sleep (ms : Z)
  | ConsoleError (e : JSError)
  | Saving
  | WriteFile (state : JSValue)
  | StateSaved
  | Total (line : string)
  | Destroy
  | Uncaught (e : JSError).

Record Outcome : Type := mkOutcome {
  trace : list Event;
  exitCode : Z
}.

(** ** loadState and saveState, lines 20 to 33 *)

(** [try { ... } catch { ... }]: the handler takes over when the body
    throws. *)
Definition try_catch {A : Type} (body : Result A) (handler : JSError -> Result A)
  : Result A :=
  match body with
  | Ok a => Ok a
  | Throw e => handler e
  end.

(** [file] is what [fs.readFile(STATE_FILE, "utf-8")] settles to. *)
Definition loadState (file : Result string) : Result JSValue :=
  try_catch (text <- file ;; JSON.parse text) (fun _ => Ok (JArr [])).

Definition saveState (w : World) (state : JSValue) : list Event * Result unit :=
  match writeFile w state with
  | Ok _ => ([Saving; WriteFile state; StateSaved], Ok tt)
  | Throw e => ([Saving; WriteFile state], Throw e)
  end.

(** ** The loop, lines 66 to 183 *)

Definition SLEEP_BETWEEN_SENDS : Z := 3000.

(** One UTF-8 sequence per step: the string iterator yields code points. *)
Fixpoint codePoints (pending : nat) (cur : string) (s : string) : list string :=
  match s with
  | "" => match cur with "" => [] | _ => [cur] end
  | String c r =>
      match pending with
      | S k =>
          match k with
          | O => (cur ++ String c "") :: codePoints 0 "" r
          | _ => codePoints k (cur ++ String c "") r
          end
      | O =>
          let n := Num.code c in
          if andb (192 <=? n) (n <? 224) then codePoints 1 (String c "") r
          else if andb (224 <=? n) (n <? 240) then codePoints 2 (String c "") r
          else if andb (240 <=? n) (n <? 248) then codePoints 3 (String c "") r
          else String c "" :: codePoints 0 "" r
      end
  end.

(** What [for (const item of data)] iterates over: the elements of an
    array, the code points of a string; nothing else that [axios] can
    return is iterable. *)
Definition iterate (data : JSValue) : Result (list JSValue) :=
  match data with
  | JArr items => Ok items
  | JStr s => Ok (map JStr (codePoints 0 "" s))
  | _ => Throw (TypeError "data is not iterable")
  end.

(** [state.push(item)]. *)
Definition push (state item : JSValue) : Result JSValue :=
  match state with
  | JArr st => Ok (JArr (st ++ [item]))
  | JNull => Throw (TypeError "Cannot read properties of null (reading 'push')")
  | JUndefined =>
      Throw (TypeError "Cannot read properties of undefined (reading 'push')")
  | _ => Throw (TypeError "state.push is not a function")
  end.

(** The line that reports a delivery, line 181. *)
Definition postedLine (item : JSValue) : Result string :=
  ticker <- getProp item "ticker" ;;
  tickerS <- ToString ticker ;;
  epsDate <- getProp item "epsDate" ;;
  epsDateS <- ToString epsDate ;;
  Ok ("✔ Posted: " ++ tickerS ++ " (" ++ epsDateS ++ ")").

(** The [for] loop from the item at hand on, [k] calls of [webhook.send]
    having been made: the state when the loop is left, what happened, and
    the exception that left it, if one did. *)
Fixpoint loop (w : World) (k : nat) (state : JSValue) (items : list JSValue)
  : JSValue * list Event * option JSError :=
  match items with
  | [] => (state, [], None)
  | item :: rest =>
      match exists_ state item with
      | Throw e => (state, [], Some e)
      | Ok true => loop w k state rest
      | Ok false =>
          match format (mkHost (toLocaleString w) (clock w k)) item with
          | Throw e => (state, [Format item], Some e)
          | Ok embed =>
              match send w k embed with
              | Throw e => (state, [Format item; Send item embed], Some e)
              | Ok _ =>
                  match push state item with
                  | Throw e => (state, [Format item; Send item embed], Some e)
                  | Ok state' =>
                      match postedLine item with
                      | Throw e => (state', [Format item; Send item embed], Some e)
                      | Ok line =>
                          let '(final, evs, err) := loop w (S k) state' rest in
                          (final,
                           Format item :: Send item embed :: Posted line
                             :: Sleep SLEEP_BETWEEN_SENDS :: evs,
                           err)
                      end
                  end
              end
          end
      end
  end.

(** ** main, lines 35 to 191 *)

Definition warmup_url : string := "https://www.earningswhispers.com/earningsnews".
Definition data_url : string := "https://www.earningswhispers.com/api/todaysresults".

(** The [try] block, lines 40 to 183. *)
Definition try_block (w : World) (state : JSValue)
  : JSValue * list Event * option JSError :=
  match warmup w with
  | Throw e => (state, [Get warmup_url], Some e)
  | Ok _ =>
      match todaysresults w with
      | Throw e => (state, [Get warmup_url; Get data_url], Some e)
      | Ok data =>
          match iterate data with
          | Throw e => (state, [Get warmup_url; Get data_url], Some e)
          | Ok items =>
              let '(final, evs, err) := loop w 0 state items in
              (final, Get warmup_url :: Get data_url :: evs, err)
          end
      end
  end.

(** The [catch] clause, lines 184 to 185. *)
Definition catch_block (err : option JSError) : list Event :=
  match err with
  | Some e => [ConsoleError e]
  | None => []
  end.

(** The number of UTF-16 code units of a string kept as UTF-8 bytes: two
    for a sequence of four bytes, one for any other. *)
Definition utf16_length (s : string) : Z :=
  fold_right (fun cp n => (if (String.length cp =? 4)%nat then 2 else 1) + n) 0
             (codePoints 0 "" s).

(** [state.length]: the length of an array or of a string, the own
    property of an object if it has one; [null] has no properties. *)
Definition lengthOf (state : JSValue) : Result JSValue :=
  match state with
  | JArr st => Ok (JNum (Num.of_Z (Z.of_nat (List.length st))))
  | JStr s => Ok (JNum (Num.of_Z (utf16_length s)))
  | _ => getProp state "length"
  end.

(** The line that reports the size of the state, line 188. *)
Definition totalLine (state : JSValue) : Result string :=
  n <- lengthOf state ;;
  nS <- ToString n ;;
  Ok ("Total records: " ++ nS).

(** The [finally] clause, lines 186 to 190: an exception of [saveState], or
    of reading [state.length] from [null], leaves [main] rejected. *)
Definition finally_block (w : World) (state : JSValue) : list Event * Result unit :=
  match saveState w state with
  | (evs, Throw e) => (evs, Throw e)
  | (evs, Ok _) =>
      match totalLine state with
      | Throw e => (evs, Throw e)
      | Ok line => ((evs ++ [Total line; Destroy])%list, Ok tt)
      end
  end.

(** [main()] and the handler attached to it, lines 193 to 197.  Creating
    the cookie jar and the client (lines 37 to 38) involves nothing from
    outside and is not shown. *)
Definition main (w : World) : Outcome :=
  match loadState (readFile w) with
  | Throw e => mkOutcome [ConsoleError e; Destroy] 1
  | Ok state =>
      let '(final, evs1, err) := try_block w state in
      let evs2 := catch_block err in
      match finally_block w final with
      | (evs3, Ok _) => mkOutcome (evs1 ++ evs2 ++ evs3)%list 0
      | (evs3, Throw e) =>
          mkOutcome (evs1 ++ evs2 ++ evs3 ++ [ConsoleError e; Destroy])%list 1
      end
  end.

(** The module from its first line: without the webhook URL (unset or
    empty), or with one that [WebhookClient] refuses, nothing else runs. *)
Definition script (w : World) : Outcome :=
  match DISCORD_EARNINGS_WEBHOOK w with
  | None | Some "" =>
      mkOutcome [ConsoleError (Rejected "Missing DISCORD_EARNINGS_WEBHOOK")] 1
  | Some _ =>
      match newWebhookClient w with
      | Throw e => mkOutcome [Uncaught e] 1
      | Ok _ => main w
      end
  end.

Definition passesStartup (w : World) : bool :=
  match DISCORD_EARNINGS_WEBHOOK w with
  | None | Some "" => false
  | Some _ => succeeded (newWebhookClient w)
  end.

(** ** Reading a trace *)

(** The calls of [webhook.send], in order. *)
Fixpoint sends (tr : list Event) : list (JSValue * Embed) :=
  match tr with
  | [] => []
  | Send item e :: rest => (item, e) :: sends rest
  | _ :: rest => sends rest
  end.

(** The items the loop started to format, in order. *)
Fixpoint formatted (tr : list Event) : list JSValue :=
  match tr with
  | [] => []
  | Format item :: rest => item :: formatted rest
  | _ :: rest => formatted rest
  end.

(** The states handed to [fs.writeFile], in order. *)
Fixpoint persisted (tr : list Event) : list JSValue :=
  match tr with
  | [] => []
  | WriteFile state :: rest => state :: persisted rest
  | _ :: rest => persisted rest
  end.

(** What may follow the write: the two log lines, the release of the
    webhook, and the report of an escaped exception. *)
Definition isEpilogue (ev : Event) : bool :=
  match ev with
  | StateSaved | Total _ | Destroy | ConsoleError _ => true
  | _ => false
  end.

(** ** New items *)

(** The items of the feed that the loop does not skip when every one of
    them is delivered: each item is compared with the loaded records and
    with the items pushed before it (lines 67 to 70 and 180).  The scan
    ends the loop when it throws. *)
Fixpoint newItems (st feed : list JSValue) : list JSValue :=
  match feed with
  | [] => []
  | item :: rest =>
      match exists_ (JArr st) item with
      | Ok false => item :: newItems (st ++ [item]) rest
      | Ok true => newItems st rest
      | Throw _ => []
      end
  end.

Definition field (v : JSValue) (k : string) : JSValue :=
  match getProp v k with
  | Ok x => x
  | Throw _ => JUndefined
  end.

(** The composite key of [e] is that of [item]. *)
Definition sameKey (e item : JSValue) : bool :=
  andb (strictEq (field e "epsDate") (field item "epsDate"))
       (strictEq (field e "ticker") (field item "ticker")).

(** The new items in the words of the specification: the reports whose key
    is not among the keys of the loaded state, in feed order. *)
Definition newItems_spec (st feed : list JSValue) : list JSValue :=
  filter (fun item => negb (existsb (fun e => sameKey e item) st)) feed.

(** No two reports of the feed share a key. *)
Fixpoint distinctKeys (feed : list JSValue) : bool :=
  match feed with
  | [] => true
  | x :: rest => andb (forallb (fun y => negb (sameKey x y)) rest) (distinctKeys rest)
  end.

(** [needle] occurs in [s]. *)
Definition Substring (needle s : string) : Prop :=
  exists before after, s = before ++ needle ++ after.

(** ** Sample records and worlds *)

Definition dq : string := String (ascii_of_nat 34) "".
Definition quoted (s : string) : string := dq ++ s ++ dq.

(** The record of the state file in the scenario of the specification. *)
Definition HCA_stored : JSValue :=
  JObj [("epsDate", JStr "2025-07-25T07:30:00"); ("ticker", JStr "HCA")].

Definition state_text : string :=
  "[ { " ++ quoted "epsDate" ++ ": " ++ quoted "2025-07-25T07:30:00" ++ ", "
  ++ quoted "ticker" ++ ": " ++ quoted "HCA" ++ " } ]".

(** The two records of the comment at the end of the source file, the
    summaries shortened. *)
Definition CNC : JSValue :=
  JObj [ ("epsDate", JStr "2025-07-27T12:50:00");
         ("ticker", JStr "CNC");
         ("name", JStr "Centene Corporation");
         ("summary",
          JStr ("Centene (CNC) reported a loss of $0.16 per share.<br /><br />"
                ++ "The company said during its <a href="
                ++ quoted "https://app.webinar.net/NR6KbwxLVn8"
                ++ ">conference call</a> it expects 2025 earnings of "
                ++ "approximately $1.75 per share."));
         ("subject", JStr "Centene Missed Consensus Estimates");
         ("quarter", JStr "");
         ("fileName", JStr "2507277994");
         ("eps", JNum (Num.of_decimal true 16 (-2)));
         ("ewGrade", JNull);
         ("pwrRating", JNull);
         ("estimate", JNum (Num.of_decimal false 68 (-2)));
         ("whisper", JNum (Num.of_Z 999));
         ("highEstimate", JNum (Num.of_decimal false 21 (-1)));
         ("lowEstimate", JNum (Num.of_decimal false 3 (-1)));
         ("revenue", JNum (Num.of_Z 48742));
         ("revenueEstimate", JNum (Num.of_Z 44280));
         ("earningsGrowth", JNum (Num.of_decimal true 10661157024793389 (-16)));
         ("revenueGrowth", JNum (Num.of_decimal false 22356662315493523 (-17)));
         ("earningsSurprise", JNum (Num.of_decimal true 12352941176470589 (-16)));
         ("revenueSurprise", JNum (Num.of_decimal false 10076784101174345 (-17)));
         ("prevEarningsGrowth", JNull);
         ("prevRevenueGrowth", JNum (Num.of_decimal false 153760487044324 (-15))) ].

Definition HCA : JSValue :=
  JObj [ ("epsDate", JStr "2025-07-25T07:30:00");
         ("ticker", JStr "HCA");
         ("name", JStr "HCA Healthcare, Inc.");
         ("summary", JStr "HCA Healthcare (HCA) reported earnings of $6.84 per share.");
         ("subject", JStr "HCA Healthcare Beat Expectations");
         ("quarter", JStr "");
         ("fileName", JStr "2507259537");
         ("eps", JNum (Num.of_decimal false 684 (-2)));
         ("ewGrade", JNull);
         ("pwrRating", JNull);
         ("estimate", JNum (Num.of_decimal false 619 (-2)));
         ("whisper", JNum (Num.of_decimal false 635 (-2)));
         ("highEstimate", JNum (Num.of_decimal false 651 (-2)));
         ("lowEstimate", JNum (Num.of_decimal false 56 (-1)));
         ("revenue", JNum (Num.of_Z 18605));
         ("revenueEstimate", JNum (Num.of_Z 18460));
         ("earningsSurprise", JNum (Num.of_decimal false 7716535433070866 (-17)));
         ("revenueSurprise", JNum (Num.of_decimal false 7854821235102925 (-18)));
         ("prevEarningsGrowth", JNull);
         ("prevRevenueGrowth", JNum (Num.of_decimal false 5663533075725244 (-17))) ].

(** A record that carries nothing but its key and subject. *)
Definition bare (date ticker subject : string) : JSValue :=
  JObj [("epsDate", JStr date); ("ticker", JStr ticker); ("subject", JStr subject)].

Definition AAA : JSValue := bare "2025-07-28T08:00:00" "AAA" "AAA Beat Expectations".
Definition BBB : JSValue := bare "2025-07-28T08:30:00" "BBB" "BBB Missed Expectations".
Definition CCC : JSValue := bare "2025-07-28T09:00:00" "CCC" "CCC Reports".

(** A host that shows the date as it is written in the record. *)
Definition plain_date (v : JSValue) : string :=
  match v with
  | JStr s => s
  | _ => "Invalid Date"
  end.

Definition rejected : JSError := Rejected "discord.js".

(** The webhook accepts every call but the [n]-th one (counting from 0). *)
Definition fails_at (n : nat) (k : nat) (e : Embed) : Result unit :=
  if Nat.eqb k n then Throw rejected else Ok tt.

Definition accepts (k : nat) (e : Embed) : Result unit := Ok tt.

Definition world_of (file : Result string) (data : Result JSValue)
    (snd_ : nat -> Embed -> Result unit) : World :=
  {| DISCORD_EARNINGS_WEBHOOK := Some "https://discord.com/api/webhooks/1/t";
     newWebhookClient := Ok tt;
     readFile := file;
     warmup := Ok tt;
     todaysresults := data;
     toLocaleString := plain_date;
     clock := fun k => 1753620000000 + 3000 * Z.of_nat k;
     send := snd_;
     writeFile := fun _ => Ok tt |}.

(** The end-to-end scenario of the specification: HCA is in the state file,
    the feed returns CNC and HCA. *)
Definition scenario : World :=
  world_of (Ok state_text) (Ok (JArr [CNC; HCA])) accepts.

(** Three new reports after the stored one, the second delivery failing. *)
Definition second_send_fails : World :=
  world_of (Ok state_text) (Ok (JArr [AAA; HCA; BBB; CCC])) (fails_at 1).

(** No state file, and an HTML page where the JSON was expected. *)
Definition html_answer : World :=
  world_of (Throw (Rejected "ENOENT")) (Ok (JStr "<html>")) accepts.

(** The data request fails. *)
Definition fetch_fails : World :=
  world_of (Ok state_text) (Throw (Rejected "axios: status 403")) accepts.


(** The value of the field called [fname] in an embed. *)
Definition fieldValue (fname : string) (e : Embed) : option JSValue :=
  option_map value (find (fun f => String.eqb (name f) fname) (fields e)).



(** The properties that the embed guards against [null] and [undefined],
    each with the name of the field that shows it. *)
Definition guarded_fields : list (string * string) :=
  [ ("revenue", "Revenue");
    ("revenueEstimate", "Revenue Estimate");
    ("earningsSurprise", "Earnings Surprise %");
    ("revenueSurprise", "Revenue Surprise %");
    ("prevEarningsGrowth", "Previous Earnings Growth");
    ("prevRevenueGrowth", "Previous Revenue Growth");
    ("ewGrade", "Earnings Whispers Grade");
    ("pwrRating", "Power Rating");
    ("fileName", "Conference Call") ].

(** ** Reading a trace, continued *)

(** The exceptions a run reports, caught or not, in order. *)
Fixpoint errors (tr : list Event) : list JSError :=
  match tr with
  | [] => []
  | ConsoleError e :: rest => e :: errors rest
  | Uncaught e :: rest => e :: errors rest
  | _ :: rest => errors rest
  end.

(** The addresses requested, in order. *)
Fixpoint gets (tr : list Event) : list string :=
  match tr with
  | [] => []
  | Get u :: rest => u :: gets rest
  | _ :: rest => gets rest
  end.

(** The items of the calls of [webhook.send] that the webhook accepted,
    the first call of the list being the [k]-th of the run. *)
Fixpoint accepted (w : World) (k : nat) (calls : list (JSValue * Embed))
  : list JSValue :=
  match calls with
  | [] => []
  | (item, e) :: rest =>
      if succeeded (send w k e)
      then item :: accepted w (S k) rest
      else accepted w (S k) rest
  end.

(** No call of [webhook.send] follows another without a pause of at least
    [SLEEP_BETWEEN_SENDS] in between; [ready] tells whether a call may come
    next. *)
Fixpoint paced (ready : bool) (tr : list Event) : bool :=
  match tr with
  | [] => true
  | Send _ _ :: rest => andb ready (paced false rest)
  | Sleep ms :: rest => paced (orb ready (SLEEP_BETWEEN_SENDS <=? ms)) rest
  | _ :: rest => paced ready rest
  end.


(** The disk is full when the state is written. *)
Definition write_fails : World :=
  {| DISCORD_EARNINGS_WEBHOOK := Some "https://discord.com/api/webhooks/1/t";
     newWebhookClient := Ok tt;
     readFile := Ok state_text;
     warmup := Ok tt;
     todaysresults := Ok (JArr [CNC; HCA]);
     toLocaleString := plain_date;
     clock := fun k => 1753620000000 + 3000 * Z.of_nat k;
     send := accepts;
     writeFile := fun _ => Throw (Rejected "ENOSPC") |}.

(** A report whose summary is a number. *)
Definition BAD : JSValue :=
  JObj [ ("epsDate", JStr "2025-07-28T08:15:00"); ("ticker", JStr "BAD");
         ("subject", JStr "BAD Reports"); ("summary", JNum 42) ].

(** The feed carries a report that cannot be formatted between two that
    can. *)
Definition poisoned_feed : World :=
  world_of (Ok state_text) (Ok (JArr [AAA; BAD; CCC])) accepts.

(** The feed carries the same new report twice. *)
Definition repeated_report : World :=
  world_of (Ok state_text) (Ok (JArr [AAA; AAA; BBB])) accepts.





(** The warm-up request is refused. *)
Definition warmup_fails : World :=
  {| DISCORD_EARNINGS_WEBHOOK := Some "https://discord.com/api/webhooks/1/t";
     newWebhookClient := Ok tt;
     readFile := Ok state_text;
     warmup := Throw (Rejected "axios: status 503");
     todaysresults := Ok (JArr [CNC; HCA]);
     toLocaleString := plain_date;
     clock := fun k => 1753620000000 + 3000 * Z.of_nat k;
     send := accepts;
     writeFile := fun _ => Ok tt |}.

(** ** Shapes of values *)

(** The values on which [?.includes(...)] does not throw: [null] and
    [undefined], strings and arrays. *)
Definition hasIncludes (v : JSValue) : bool :=
  match v with
  | JUndefined | JNull | JStr _ | JArr _ => true
  | _ => false
  end.






(** [c] does not occur in [s]. *)
Fixpoint lacks (c : ascii) (s : string) : bool :=
  match s with
  | "" => true
  | String c' r => andb (negb (Ascii.eqb c' c)) (lacks c r)
  end.

(** The number of calls of [webhook.destroy]. *)
Fixpoint releases (evs : list Event) : nat :=
  match evs with
  | [] => 0
  | Destroy :: rest => S (releases rest)
  | _ :: rest => releases rest
  end.

(** The state file holds [null], the feed is the usual one. *)
Definition null_state : World :=
  world_of (Ok "null") (Ok (JArr [CNC; HCA])) accepts.

(** The environment variable is not set. *)
Definition no_webhook : World :=
  {| DISCORD_EARNINGS_WEBHOOK := None;
     newWebhookClient := Ok tt;
     readFile := Ok state_text;
     warmup := Ok tt;
     todaysresults := Ok (JArr [CNC; HCA]);
     toLocaleString := plain_date;
     clock := fun k => 1753620000000 + 3000 * Z.of_nat k;
     send := accepts;
     writeFile := fun _ => Ok tt |}.

(** The names of the fields of a notification, in their order. *)
Definition field_names : list string :=
  [ "Earnings Date"; "EPS (est/whisp)"; "Revenue"; "Revenue Estimate";
    "Earnings Surprise %"; "Revenue Surprise %"; "Previous Earnings Growth";
    "Previous Revenue Growth"; "High / Low Est."; "Earnings Whispers Grade";
    "Power Rating"; "Conference Call" ].

(* ================================================================== *)
(** * Properties *)
(* ================================================================== *)

(** ** The model at work *)

(** Number::toString on the numbers of the sample records and on the
    corners of the format: shortest digits, the switch to exponents at
    [1e21] and [1e-7], the smallest and the largest number. *)
Example toString_samples :
  map Num.toString
    [ Num.of_decimal true 16 (-2); Num.of_decimal false 684 (-2); 48742%float;
      PrimFloat.div 1 3;
      PrimFloat.add (Num.of_decimal false 1 (-1)) (Num.of_decimal false 2 (-1));
      Num.of_decimal false 1 21; Num.of_decimal false 123456789012345680000 0;
      Num.of_decimal false 1 (-6); Num.of_decimal false 1 (-7);
      Num.of_decimal false 5 (-324); Num.of_decimal false 17976931348623157 292;
      Num.of_decimal false 1 23; neg_zero; nan; neg_infinity ]
  = [ "-0.16"; "6.84"; "48742";
      "0.3333333333333333";
      "0.30000000000000004";
      "1e+21"; "123456789012345680000";
      "0.000001"; "1e-7";
      "5e-324"; "1.7976931348623157e+308";
      "1e+23"; "0"; "NaN"; "-Infinity" ].
Proof. vm_compute. reflexivity. Qed.

(** toFixed rounds the exact binary value, the larger neighbour on a tie,
    keeps the sign of a negative number that rounds to zero, and gives up
    its digits from [1e21] on. *)
Example toFixed_samples :
  map (fun x => Num.toFixed x 2)
    [ Num.of_decimal false 1005 (-3); 0.125%float; Num.of_decimal true 1 (-3);
      Num.of_decimal false 48742 (-3); 0%float; neg_zero;
      Num.of_decimal false 1 21; nan ]
  = [ "1.00"; "0.13"; "-0.00"; "48.74"; "0.00"; "0.00"; "1e+21"; "NaN" ].
Proof. vm_compute. reflexivity. Qed.

Example StringToNumber_samples :
  map Num.StringToNumber
    [ ""; "  12 "; "48742"; "0x1F"; "-0x1F"; "1e3"; ".5"; "5."; ".";
      "-Infinity"; "infinity"; "12px"; "1 2"; "+3.25e-2"; "0b101"; "1e" ]
  = [ 0%float; 12%float; 48742%float; 31%float; nan; 1000%float; 0.5%float;
      5%float; nan; neg_infinity; nan; nan; nan; Num.of_decimal false 325 (-4);
      5%float; nan ].
Proof. vm_compute. reflexivity. Qed.

(** JSON.parse: escapes, a repeated member, nesting, and texts that are
    not JSON. *)
Example parse_samples :
  JSON.parse state_text = Ok (JArr [HCA_stored]) /\
  JSON.parse ("{ " ++ quoted "a" ++ ": [1, -2.5e1, true, null, {}], "
              ++ quoted "b\n\u00e9" ++ ": " ++ quoted "x" ++ ", "
              ++ quoted "a" ++ ": false }")
    = Ok (JObj [("a", JBool false); ("b" ++ newline ++ "é", JStr "x")]) /\
  map (fun t => succeeded (JSON.parse t))
      [ ""; "[1,]"; "01"; "1.e5"; "nul"; "[1] x"; "{not json"; "[ {"; "-" ]
    = [ false; false; false; false; false; false; false; false; false ] /\
  map (fun t => succeeded (JSON.parse t)) [ "null"; " 12 "; "[[[]]]"; "-0"; "1e999" ]
    = [ true; true; true; true; true ].
Proof. vm_compute. repeat split. Qed.

(** The end-to-end scenario of the specification: with HCA in the state
    file and a feed of CNC and HCA, one notification is sent, for CNC,
    classified as a miss and with a revenue of $48.74B, and the state that
    is written holds HCA and CNC in that order. *)
Example scenario_run :
  map fst (sends (trace (script scenario))) = [CNC] /\
  map (fun p => (title (snd p), fieldValue "Revenue" (snd p)))
      (sends (trace (script scenario)))
    = [ (red_circle ++ " CNC — Centene Missed Consensus Estimates",
         Some (JStr "$48.74B")) ] /\
  persisted (trace (script scenario)) = [JArr [HCA_stored; CNC]] /\
  exitCode (script scenario) = 0.
Proof. vm_compute. repeat split. Qed.

(** ** Comparisons of binary64 numbers *)

Lemma SFcompare_antisym (a b : spec_float) :
  SFcompare b a = option_map CompOpp (SFcompare a b).
Proof.
  destruct a as [sa|sa| |sa ma ea], b as [sb|sb| |sb mb eb]; simpl;
    try reflexivity;
    try (destruct sa; reflexivity);
    try (destruct sb; reflexivity);
    try (destruct sa, sb; reflexivity).
  destruct sa, sb; simpl; try reflexivity.
  - rewrite (Z.compare_antisym ea eb).
    destruct (ea ?= eb) eqn:E; simpl; try reflexivity.
    rewrite (Pos.compare_cont_antisym ma mb Eq). reflexivity.
  - rewrite (Z.compare_antisym ea eb).
    destruct (ea ?= eb) eqn:E; simpl; try reflexivity.
    rewrite (Pos.compare_cont_antisym ma mb Eq). reflexivity.
Qed.


Lemma ltb_not_ge (x c : float) :
  PrimFloat.ltb x c = true -> PrimFloat.leb c x = false.
Proof.
  rewrite leb_spec, ltb_spec. unfold SFleb, SFltb.
  rewrite (SFcompare_antisym (Prim2SF x) (Prim2SF c)).
  destruct (SFcompare (Prim2SF x) (Prim2SF c)) as [[ | | ]|]; simpl;
    intros H; try reflexivity; discriminate H.
Qed.

Lemma Prim2SF_1 : Prim2SF 1 = S754_finite false 4503599627370496 (-52).
Proof. vm_compute. reflexivity. Qed.

Lemma Prim2SF_999 : Prim2SF 999 = S754_finite false 8787296929185792 (-43).
Proof. vm_compute. reflexivity. Qed.


(** ** Substrings *)

Lemma prefix_app (n s : string) :
  prefix n s = true <-> exists after, s = n ++ after.
Proof.
  revert s. induction n as [|c n IH]; intros s; simpl.
  - split; [intros _; exists s; reflexivity | destruct s; reflexivity].
  - destruct s as [|c' s'].
    + split; [discriminate | intros [after H]; discriminate H].
    + simpl. destruct (ascii_dec c c') as [->|Hne].
      * rewrite IH. split; intros [after H]; exists after.
        -- now rewrite H.
        -- now injection H.
      * split; [discriminate|].
        intros [after H]. injection H as H1 _. congruence.
Qed.

Lemma includes_unfold (s needle : string) :
  includes s needle =
  if prefix needle s then true
  else match s with
       | "" => false
       | String _ r => includes r needle
       end.
Proof. destruct s; reflexivity. Qed.

Lemma includes_Substring (s needle : string) :
  includes s needle = true <-> Substring needle s.
Proof.
  unfold Substring. induction s as [|c s IH]; rewrite includes_unfold;
    destruct (prefix needle _) eqn:P.
  - split; [intros _|reflexivity].
    apply prefix_app in P. destruct P as [after P].
    exists "", after. exact P.
  - split; [discriminate|].
    intros [[|c b] [after H]]; simpl in H.
    + assert (prefix needle "" = true) as P'
        by (apply prefix_app; exists after; exact H).
      rewrite P' in P. discriminate P.
    + discriminate H.
  - split; [intros _|reflexivity].
    apply prefix_app in P. destruct P as [after P].
    exists "", after. exact P.
  - rewrite IH. split.
    + intros [b [after H]]. exists (String c b), after. simpl. now rewrite H.
    + intros [[|c' b] [after H]]; simpl in H.
      * assert (prefix needle (String c s) = true) as P'
          by (apply prefix_app; exists after; exact H).
        rewrite P' in P. discriminate P.
      * injection H as _ H. exists b, after. exact H.
Qed.

(** ** loadState *)

(** C5. [loadState] never raises: it always returns a value, and that value
    is the empty array whenever the state file cannot be read (it does not
    exist, or is unreadable) or its text is not JSON. *)
Theorem loadState_never_raises :
  (forall file : Result string, exists state, loadState file = Ok state) /\
  (forall e, loadState (Throw e) = Ok (JArr [])) /\
  (forall text e, JSON.parse text = Throw e -> loadState (Ok text) = Ok (JArr [])).
Proof.
  split; [|split].
  - intros [text|e]; unfold loadState, try_catch; simpl.
    + destruct (JSON.parse text) as [v|e]; eauto.
    + eauto.
  - intros e. reflexivity.
  - intros text e H. unfold loadState, try_catch. simpl. rewrite H. reflexivity.
Qed.

(** A missing file, a truncated document and a file that is not JSON at
    all are read as the empty state; a well-formed file is read as it is. *)
Lemma loadState_never_raises_witness :
  loadState (Throw (Rejected "ENOENT")) = Ok (JArr []) /\
  loadState (Ok "[ {") = Ok (JArr []) /\
  loadState (Ok "not json") = Ok (JArr []) /\
  loadState (Ok state_text) = Ok (JArr [HCA_stored]).
Proof.
  destruct loadState_never_raises as [_ [H1 H2]].
  split; [apply H1|].
  split; [apply (H2 _ (SyntaxError "Unexpected token in JSON")); vm_compute; reflexivity|].
  split; [apply (H2 _ (SyntaxError "Unexpected token in JSON")); vm_compute; reflexivity|].
  vm_compute. reflexivity.
Defined.

(** ** statusEmoji *)

Lemma circles_differ :
  green_circle <> red_circle /\ green_circle <> blue_circle /\ red_circle <> blue_circle.
Proof. repeat split; discriminate. Qed.

(** On a subject that is a string, [statusEmoji] is decided by the four
    substring tests, in the order of the source. *)
Lemma statusEmoji_of_string (item : JSValue) (s : string) :
  getProp item "subject" = Ok (JStr s) ->
  statusEmoji item =
  Ok (if orb (includes s "Beat Expectations") (includes s "Beat Consensus Estimates")
      then green_circle
      else if orb (includes s "Missed Expectations")
                  (includes s "Missed Consensus Estimates")
      then red_circle
      else blue_circle).
Proof.
  intros H. unfold statusEmoji, subjectHas. rewrite H. cbn [bind optIncludes or_else ToBoolean].
  destruct (includes s "Beat Expectations"); cbn [bind ToBoolean orb]; [reflexivity|].
  destruct (includes s "Beat Consensus Estimates"); cbn [bind ToBoolean orb];
    [reflexivity|].
  destruct (includes s "Missed Expectations"); cbn [bind ToBoolean orb]; [reflexivity|].
  destruct (includes s "Missed Consensus Estimates"); reflexivity.
Qed.

Lemma not_Substring (needle s : string) :
  ~ Substring needle s <-> includes s needle = false.
Proof.
  rewrite <- includes_Substring. destruct (includes s needle); split; intros H.
  - exfalso. apply H. reflexivity.
  - discriminate H.
  - reflexivity.
  - intros H'. discriminate H'.
Qed.

(** C4. The classification of a record whose subject is a string [s] is a
    substring match, byte for byte and hence case-sensitive, with the Beat
    markers tried first: POSITIVE (green) as soon as [s] contains a Beat
    marker, whatever else it contains; NEGATIVE (red) when it contains a
    Missed marker and no Beat marker; NEUTRAL (blue) otherwise. *)
Theorem statusEmoji_classification (item : JSValue) (s : string)
  (Hsubject : getProp item "subject" = Ok (JStr s)) :
  let beat := Substring "Beat Expectations" s \/ Substring "Beat Consensus Estimates" s in
  let missed :=
    Substring "Missed Expectations" s \/ Substring "Missed Consensus Estimates" s in
  (beat -> statusEmoji item = Ok green_circle) /\
  (~ beat -> missed -> statusEmoji item = Ok red_circle) /\
  (~ beat -> ~ missed -> statusEmoji item = Ok blue_circle).
Proof.
  intros beat missed. subst beat missed.
  rewrite (statusEmoji_of_string item s Hsubject).
  rewrite <- !includes_Substring.
  destruct (includes s "Beat Expectations"), (includes s "Beat Consensus Estimates"),
    (includes s "Missed Expectations"), (includes s "Missed Consensus Estimates");
    cbn [orb]; repeat split; intros; try reflexivity;
    repeat match goal with
           | H : ~ _ |- _ => exfalso; apply H; clear H; auto
           | H : _ \/ _ |- _ => destruct H as [H|H]; try discriminate H
           end.
Qed.

(** A subject with both kinds of marker is POSITIVE, one with a Missed
    marker only is NEGATIVE, and a marker in another case is none. *)
Lemma statusEmoji_classification_witness :
  statusEmoji (bare "d" "T" "T Beat Expectations, peers Missed Expectations")
    = Ok green_circle /\
  statusEmoji CNC = Ok red_circle /\
  statusEmoji (bare "d" "T" "T beat expectations") = Ok blue_circle.
Proof.
  split; [|split].
  - destruct (statusEmoji_classification
                (bare "d" "T" "T Beat Expectations, peers Missed Expectations")
                "T Beat Expectations, peers Missed Expectations" eq_refl)
      as [Hbeat _].
    apply Hbeat. left. exists "T ", ", peers Missed Expectations". reflexivity.
  - destruct (statusEmoji_classification CNC "Centene Missed Consensus Estimates" eq_refl)
      as [_ [Hmissed _]].
    apply Hmissed.
    + intros [H|H]; apply includes_Substring in H; vm_compute in H; discriminate H.
    + right. exists "Centene ", "". reflexivity.
  - destruct (statusEmoji_classification (bare "d" "T" "T beat expectations")
                "T beat expectations" eq_refl)
      as [_ [_ Hnone]].
    apply Hnone; intros [H|H]; apply includes_Substring in H; vm_compute in H;
      discriminate H.
Defined.

(** C10. A record whose subject is [null] or missing is NEUTRAL (blue):
    the optional call yields [undefined] for each of the four tests, so the
    classification returns, and neither the Beat nor the Missed branch is
    taken. *)
Theorem absent_subject_is_neutral (item : JSValue) :
  getProp item "subject" = Ok JNull \/ getProp item "subject" = Ok JUndefined ->
  statusEmoji item = Ok blue_circle.
Proof.
  intros [H|H]; unfold statusEmoji, subjectHas; rewrite H; reflexivity.
Qed.

Lemma absent_subject_is_neutral_witness :
  statusEmoji (JObj [("ticker", JStr "T"); ("subject", JNull)]) = Ok blue_circle /\
  statusEmoji HCA_stored = Ok blue_circle.
Proof.
  split.
  - apply absent_subject_is_neutral. left. reflexivity.
  - apply absent_subject_is_neutral. right. reflexivity.
Defined.

(** ** Two decimals *)

Lemma length_app (a b : string) :
  String.length (a ++ b) = (String.length a + String.length b)%nat.
Proof. induction a as [|c a IH]; simpl; [reflexivity|now rewrite IH]. Qed.

Lemma length_zeros (n : nat) : String.length (Num.zeros n) = n.
Proof. induction n as [|n IH]; simpl; [reflexivity|now rewrite IH]. Qed.

Lemma length_substring (s : string) :
  forall n m, (n + m <= String.length s)%nat -> String.length (substring n m s) = m.
Proof.
  induction s as [|c s IH]; intros n m H; simpl in H.
  - destruct n, m; simpl in *; try reflexivity; lia.
  - destruct n as [|n]; simpl.
    + destruct m as [|m]; simpl; [reflexivity|]. rewrite IH; [reflexivity|lia].
    + apply IH. lia.
Qed.

Lemma fixed_pos_decimals (m : positive) (e : Z) (f : nat) :
  Qle_bool (10 ^ 21) (Num.exact m e) = false ->
  exists a b, Num.fixed_pos m e (S f) = a ++ "." ++ b /\ String.length b = S f.
Proof.
  intros H. unfold Num.fixed_pos. rewrite H.
  set (ds := Num.zeros _ ++ _).
  assert (S f <= String.length ds)%nat as Hlen.
  { unfold ds. rewrite length_app, length_zeros. lia. }
  exists (Num.take (String.length ds - S f) ds), (Num.drop (String.length ds - S f) ds).
  split; [reflexivity|].
  unfold Num.drop. rewrite length_substring; lia.
Qed.

(** Within its fixed range, [toFixed(f)] for [f >= 1] ends in a decimal
    point and exactly [f] characters: "with two decimals" for [f = 2]. *)
Lemma toFixed_decimals (x : float) (f : nat) :
  Num.fixed_range x = true ->
  exists a b, Num.toFixed x (S f) = a ++ "." ++ b /\ String.length b = S f.
Proof.
  unfold Num.fixed_range, Num.toFixed.
  destruct (Prim2SF x) as [s|s| |s m e]; try discriminate.
  - intros _. exists "0", (Num.zeros (S f)). split; [reflexivity|apply length_zeros].
  - intros H. apply negb_true_iff in H.
    destruct (fixed_pos_decimals m e f H) as (a & b & Heq & Hb).
    destruct s.
    + exists ("-" ++ a), b. rewrite Heq. split; [reflexivity|exact Hb].
    + exists a, b. split; assumption.
Qed.

(** ** fmtMoney *)



(** ** The shape of a run *)

Lemma sends_app (a b : list Event) : sends (a ++ b) = (sends a ++ sends b)%list.
Proof. induction a as [|[] a IH]; simpl; try rewrite IH; reflexivity. Qed.

Lemma formatted_app (a b : list Event) :
  formatted (a ++ b) = (formatted a ++ formatted b)%list.
Proof. induction a as [|[] a IH]; simpl; try rewrite IH; reflexivity. Qed.

Lemma persisted_app (a b : list Event) :
  persisted (a ++ b) = (persisted a ++ persisted b)%list.
Proof. induction a as [|[] a IH]; simpl; try rewrite IH; reflexivity. Qed.

Lemma epilogue_quiet (post : list Event) :
  forallb isEpilogue post = true ->
  sends post = [] /\ formatted post = [] /\ persisted post = [].
Proof.
  induction post as [|ev post IH]; simpl; [auto|].
  intros H. apply andb_true_iff in H. destruct H as [Hev Hpost].
  destruct ev; simpl in Hev; try discriminate Hev; auto.
Qed.

Lemma catch_quiet (err : option JSError) :
  sends (catch_block err) = [] /\ formatted (catch_block err) = [] /\
  persisted (catch_block err) = [].
Proof. destruct err; simpl; auto. Qed.

(** Splits an equation [loop w k state (item :: rest) = (final, evs, err)]
    along the branches of one iteration. *)
Ltac loop_step H :=
  cbn [loop] in H;
  match type of H with
  | context [exists_ ?state ?item] =>
      let X := fresh "Hscan" in
      destruct (exists_ state item) as [[|]|] eqn:X
  end;
  [ | match type of H with
      | context [format ?h ?item] =>
          let F := fresh "Hformat" in
          destruct (format h item) as [?embed|] eqn:F
      end;
      [ match type of H with
        | context [send ?w ?k ?e] =>
            let S := fresh "Hsend" in
            destruct (send w k e) as [|] eqn:S
        end;
        [ match type of H with
          | context [push ?state ?item] =>
              let P := fresh "Hpush" in
              destruct (push state item) as [?state'|] eqn:P
          end;
          [ match type of H with
            | context [postedLine ?item] =>
                let M := fresh "Hline" in
                destruct (postedLine item) as [?line|] eqn:M
            end;
            [ match type of H with
              | context [loop ?w ?k ?s ?l] =>
                  let L := fresh "Hrest" in
                  destruct (loop w k s l) as [[?final' ?evs'] ?err'] eqn:L
              end
            | ]
          | ]
        | ]
      | ]
    | ];
  try (injection H as <- <- <-).

Lemma loop_writes_nothing (w : World) (items : list JSValue) :
  forall k state final evs err,
    loop w k state items = (final, evs, err) -> persisted evs = [].
Proof.
  induction items as [|item rest IH]; intros k state final evs err H.
  - injection H as <- <- <-. reflexivity.
  - loop_step H; try reflexivity; eauto.
    simpl. eauto.
Qed.

(** Before the loop is entered nothing is formatted, sent or written, and
    the state is the loaded one. *)
Lemma try_block_cases (w : World) (state final : JSValue) (evs1 : list Event)
    (err : option JSError) :
  try_block w state = (final, evs1, err) ->
  (final = state /\ sends evs1 = [] /\ formatted evs1 = [] /\ persisted evs1 = [] /\
   ((exists e, warmup w = Throw e) \/ (exists e, todaysresults w = Throw e) \/
    (exists data e, todaysresults w = Ok data /\ iterate data = Throw e)))
  \/
  (exists data items evs,
     warmup w = Ok tt /\ todaysresults w = Ok data /\ iterate data = Ok items /\
     loop w 0 state items = (final, evs, err) /\
     evs1 = Get warmup_url :: Get data_url :: evs).
Proof.
  unfold try_block. intros H.
  destruct (warmup w) as [[]|e] eqn:Hw.
  - destruct (todaysresults w) as [data|e] eqn:Hd.
    + destruct (iterate data) as [items|e] eqn:Hi.
      * destruct (loop w 0 state items) as [[f evs] er] eqn:Hl.
        injection H as <- <- <-. right. exists data, items, evs. auto.
      * injection H as <- <- <-. left. repeat split; eauto 8.
    + injection H as <- <- <-. left. repeat split; eauto 8.
  - injection H as <- <- <-. left. repeat split; eauto 8.
Qed.

Lemma try_block_writes_nothing (w : World) (state final : JSValue)
    (evs1 : list Event) (err : option JSError) :
  try_block w state = (final, evs1, err) -> persisted evs1 = [].
Proof.
  intros H. destruct (try_block_cases _ _ _ _ _ H)
    as [(_ & _ & _ & Hp & _) | (data & items & evs & _ & _ & _ & Hl & ->)].
  - exact Hp.
  - simpl. exact (loop_writes_nothing _ _ _ _ _ _ _ Hl).
Qed.

(** A run that has loaded its state: the [try] block, the [catch] clause,
    then the write and what follows it. *)
Lemma main_structure (w : World) (state : JSValue) :
  loadState (readFile w) = Ok state ->
  exists final evs1 err post,
    try_block w state = (final, evs1, err) /\
    trace (main w)
      = (evs1 ++ catch_block err ++ Saving :: WriteFile final :: post)%list /\
    forallb isEpilogue post = true.
Proof.
  intros Hload. unfold main. rewrite Hload.
  destruct (try_block w state) as [[final evs1] err].
  exists final, evs1, err.
  unfold finally_block, saveState.
  destruct (writeFile w final) as [[]|e].
  - destruct (totalLine final) as [line|e].
    + exists [StateSaved; Total line; Destroy]. repeat split.
    + exists [StateSaved; ConsoleError e; Destroy]. repeat split.
  - exists [ConsoleError e; Destroy]. repeat split.
Qed.

Lemma loadState_total (file : Result string) : exists state, loadState file = Ok state.
Proof.
  destruct file as [text|e]; unfold loadState, try_catch; simpl.
  - destruct (JSON.parse text); eauto.
  - eauto.
Qed.

Lemma script_is_main (w : World) : passesStartup w = true -> script w = main w.
Proof.
  unfold passesStartup, script.
  destruct (DISCORD_EARNINGS_WEBHOOK w) as [[|c s]|]; try discriminate;
    destruct (newWebhookClient w); try discriminate; reflexivity.
Qed.

(** A run that does not pass startup formats, sends and writes nothing. *)
Lemma script_stopped (w : World) :
  passesStartup w = false ->
  sends (trace (script w)) = [] /\ formatted (trace (script w)) = [] /\
  persisted (trace (script w)) = [].
Proof.
  unfold passesStartup, script.
  destruct (DISCORD_EARNINGS_WEBHOOK w) as [[|c s]|];
    [ | destruct (newWebhookClient w); [discriminate|] | ];
    intros _; repeat split.
Qed.

(** ** The dedup scan *)

Lemma sameReport_true (item e d1 d2 t1 t2 : JSValue) :
  getProp e "epsDate" = Ok d1 -> getProp item "epsDate" = Ok d2 ->
  strictEq d1 d2 = true ->
  getProp e "ticker" = Ok t1 -> getProp item "ticker" = Ok t2 ->
  strictEq t1 t2 = true ->
  sameReport item e = Ok true.
Proof.
  intros He Hi Hd He' Hi' Ht. unfold sameReport.
  rewrite He, Hi. cbn [bind]. rewrite Hd, He', Hi'. cbn [bind]. now rewrite Ht.
Qed.

(** A scan over a list that holds a matching record does not come back
    with [false]: it finds a match, or throws on the way to it. *)
Lemma some_hit (f : JSValue -> Result bool) (e : JSValue) (l : list JSValue) :
  In e l -> f e = Ok true -> some f l <> Ok false.
Proof.
  intros Hin He. induction l as [|x l IH]; [contradiction|].
  cbn [some]. destruct (f x) as [[|]|err] eqn:Hx; cbn [bind]; try discriminate.
  destruct Hin as [->|Hin].
  - rewrite He in Hx. discriminate Hx.
  - auto.
Qed.

Lemma push_array (state item : JSValue) (b : bool) :
  exists_ state item = Ok b ->
  exists st, state = JArr st /\ push state item = Ok (JArr (st ++ [item])).
Proof.
  destruct state; simpl; try discriminate. eauto.
Qed.

Lemma loop_skips_known (w : World) (e item : JSValue)
    (Hmatch : sameReport item e = Ok true) (items : list JSValue) :
  forall k st final evs err,
    In e st ->
    loop w k (JArr st) items = (final, evs, err) ->
    ~ In item (formatted evs) /\ ~ In item (map fst (sends evs)).
Proof.
  induction items as [|x rest IH]; intros k st final evs err Hin H.
  - injection H as <- <- <-. simpl. tauto.
  - assert (x = item -> exists_ (JArr st) x <> Ok false) as Hx.
    { intros ->. cbn [exists_]. now apply (some_hit _ e). }
    loop_step H; simpl;
      try (assert (x <> item) as Hne by (intros Heq; apply (Hx Heq); reflexivity)).
    + eauto.
    + destruct (push_array _ _ _ Hscan) as (st' & Hst & Hp).
      injection Hst as <-. rewrite Hp in Hpush. injection Hpush as <-.
      destruct (IH (Datatypes.S k) (st ++ [x])%list final' evs' err') as [IH1 IH2];
        [apply in_or_app; now left|exact Hrest|].
      split; intros [Heq|Hin']; auto.
    + split; intros [Heq|[]]; auto.
    + split; intros [Heq|[]]; auto.
    + split; intros [Heq|[]]; auto.
    + split; [intros [Heq|[]]; auto | tauto].
    + tauto.
Qed.

(** C1. A record whose [epsDate] and [ticker] are both strictly equal to
    those of a record of the loaded state is skipped in every run: the run
    neither starts to format it nor calls [webhook.send] for it.  Nothing is
    asked of the other fields of either record. *)
Theorem dedup_skips_known (w : World) (st : list JSValue) (e item : JSValue)
    (d1 d2 t1 t2 : JSValue) :
  loadState (readFile w) = Ok (JArr st) ->
  In e st ->
  getProp e "epsDate" = Ok d1 -> getProp item "epsDate" = Ok d2 ->
  strictEq d1 d2 = true ->
  getProp e "ticker" = Ok t1 -> getProp item "ticker" = Ok t2 ->
  strictEq t1 t2 = true ->
  ~ In item (formatted (trace (script w))) /\
  ~ In item (map fst (sends (trace (script w)))).
Proof.
  intros Hload Hin He Hi Hd He' Hi' Ht.
  pose proof (sameReport_true _ _ _ _ _ _ He Hi Hd He' Hi' Ht) as Hmatch.
  destruct (passesStartup w) eqn:Hstart.
  - rewrite (script_is_main w Hstart).
    destruct (main_structure w _ Hload) as (final & evs1 & err & post & Htry & -> & Hpost).
    destruct (epilogue_quiet _ Hpost) as (Hs & Hf & _).
    destruct (catch_quiet err) as (Hs' & Hf' & _).
    rewrite !formatted_app, !sends_app. cbn [formatted sends].
    rewrite Hs, Hf, Hs', Hf', !app_nil_r.
    destruct (try_block_cases _ _ _ _ _ Htry)
      as [(_ & Hs1 & Hf1 & _) | (data & items & evs & _ & _ & _ & Hl & ->)].
    + rewrite Hs1, Hf1. simpl. tauto.
    + cbn [formatted sends]. exact (loop_skips_known w e item Hmatch _ _ _ _ _ _ Hin Hl).
  - destruct (script_stopped w Hstart) as (-> & -> & _). simpl. tauto.
Qed.

(** In the scenario of the specification the feed returns HCA with all its
    fields while the state file holds HCA with its key only: HCA is neither
    formatted nor sent. *)
Lemma dedup_skips_known_witness :
  In HCA [CNC; HCA] /\
  ~ In HCA (formatted (trace (script scenario))) /\
  ~ In HCA (map fst (sends (trace (script scenario)))).
Proof.
  split; [right; left; reflexivity|].
  apply (dedup_skips_known scenario [HCA_stored] HCA_stored HCA
           (JStr "2025-07-25T07:30:00") (JStr "2025-07-25T07:30:00")
           (JStr "HCA") (JStr "HCA")).
  - vm_compute. reflexivity.
  - left. reflexivity.
  - reflexivity.
  - reflexivity.
  - reflexivity.
  - reflexivity.
  - reflexivity.
  - reflexivity.
Defined.

(** ** The write in [finally] *)

(** C7. A run that passes startup calls [fs.writeFile] exactly once, after
    everything else but the closing log lines and the release of the
    webhook, whatever happened before; and when the warm-up or the data
    request fails, what it writes is the state it loaded. *)
Theorem state_written_once (w : World) :
  passesStartup w = true ->
  exists pre final post,
    trace (script w) = (pre ++ WriteFile final :: post)%list /\
    persisted pre = [] /\ persisted post = [] /\
    forallb isEpilogue post = true /\
    ((exists e, warmup w = Throw e) \/ (exists e, todaysresults w = Throw e) ->
     loadState (readFile w) = Ok final).
Proof.
  intros Hstart. rewrite (script_is_main w Hstart).
  destruct (loadState_total (readFile w)) as [state Hload].
  destruct (main_structure w _ Hload) as (final & evs1 & err & post & Htry & Htr & Hpost).
  exists (evs1 ++ catch_block err ++ [Saving])%list, final, post.
  split; [rewrite Htr, <- !app_assoc; reflexivity|].
  split.
  { rewrite !persisted_app, (try_block_writes_nothing _ _ _ _ _ Htry).
    rewrite (proj2 (proj2 (catch_quiet err))). reflexivity. }
  split; [apply (epilogue_quiet _ Hpost)|].
  split; [exact Hpost|].
  intros Hfail. rewrite Hload. f_equal.
  destruct (try_block_cases _ _ _ _ _ Htry)
    as [(-> & _) | (data & items & evs & Hw & Hd & _)]; [reflexivity|].
  destruct Hfail as [[e He]|[e He]]; congruence.
Qed.

(** When the data request is refused, the one write of the run carries the
    record that was in the state file, and nothing else. *)
Lemma state_written_once_witness :
  persisted (trace (script fetch_fails)) = [JArr [HCA_stored]].
Proof.
  destruct (state_written_once fetch_fails eq_refl)
    as (pre & final & post & Htr & Hpre & Hpost & _ & Hfail).
  rewrite Htr, persisted_app. cbn [persisted]. rewrite Hpre, Hpost.
  assert (loadState (readFile fetch_fails) = Ok final) as Hload.
  { apply Hfail. right. exists (Rejected "axios: status 403"). reflexivity. }
  vm_compute in Hload. injection Hload as <-. reflexivity.
Defined.

(** ** Partial failure *)

Lemma getProp_field (v : JSValue) (k : string) :
  isNullish v = false -> getProp v k = Ok (field v k).
Proof.
  unfold field. destruct v; simpl; try discriminate; try reflexivity.
  destruct (lookup k props); reflexivity.
Qed.

Lemma sameReport_sameKey (item e : JSValue) :
  isNullish item = false -> isNullish e = false ->
  sameReport item e = Ok (sameKey e item).
Proof.
  intros Hi He. unfold sameReport, sameKey.
  rewrite !(getProp_field e), !(getProp_field item) by assumption. cbn [bind].
  destruct (strictEq (field e "epsDate") (field item "epsDate")); reflexivity.
Qed.

Lemma exists_existsb (st : list JSValue) (item : JSValue) :
  Forall (fun v => isNullish v = false) st -> isNullish item = false ->
  exists_ (JArr st) item = Ok (existsb (fun e => sameKey e item) st).
Proof.
  intros Hst Hi. cbn [exists_]. induction Hst as [|e st He Hst IH]; [reflexivity|].
  cbn [some existsb]. rewrite (sameReport_sameKey item e Hi He). cbn [bind].
  destruct (sameKey e item); [reflexivity|exact IH].
Qed.

Lemma existsb_none (f : JSValue -> bool) (l : list JSValue) :
  (forall x, In x l -> f x = false) -> existsb f l = false.
Proof.
  induction l as [|x l IH]; intros H; [reflexivity|].
  simpl. rewrite (H x (or_introl eq_refl)). apply IH.
  intros y Hy. apply H. now right.
Qed.

(** With records only and no key twice in the feed, what the loop treats
    as new is what the specification calls new. *)
Lemma newItems_spec_gen (feed : list JSValue) :
  forall st extra,
    Forall (fun v => isNullish v = false) st ->
    Forall (fun v => isNullish v = false) extra ->
    Forall (fun v => isNullish v = false) feed ->
    (forall x y, In x extra -> In y feed -> sameKey x y = false) ->
    distinctKeys feed = true ->
    newItems (st ++ extra) feed = newItems_spec st feed.
Proof.
  induction feed as [|y rest IH]; intros st extra Hst Hex Hfeed Hfresh Hd.
  - reflexivity.
  - inversion Hfeed as [|? ? Hy Hrest]; subst.
    cbn [distinctKeys] in Hd. apply andb_true_iff in Hd. destruct Hd as [Hy' Hd].
    cbn [newItems]. unfold newItems_spec. cbn [filter]. fold (newItems_spec st rest).
    rewrite (exists_existsb (st ++ extra) y)
      by (first [assumption | apply Forall_app; split; assumption]).
    rewrite existsb_app.
    rewrite (existsb_none (fun e => sameKey e y) extra)
      by (intros x Hx; apply Hfresh; [exact Hx|now left]).
    rewrite orb_false_r.
    destruct (existsb (fun e => sameKey e y) st); cbn [negb].
    + apply IH; auto. intros x z Hx Hz. apply Hfresh; [exact Hx|now right].
    + f_equal. rewrite <- app_assoc. apply IH; auto.
      * apply Forall_app. split; [assumption|]. constructor; [assumption|constructor].
      * intros x z Hx Hz. apply in_app_or in Hx. destruct Hx as [Hx|[<-|[]]].
        -- apply Hfresh; [exact Hx|now right].
        -- rewrite forallb_forall in Hy'. specialize (Hy' z Hz).
           now apply negb_true_iff in Hy'.
Qed.

Lemma newItems_is_spec (st feed : list JSValue) :
  Forall (fun v => isNullish v = false) st ->
  Forall (fun v => isNullish v = false) feed ->
  distinctKeys feed = true ->
  newItems st feed = newItems_spec st feed.
Proof.
  intros Hst Hfeed Hd. rewrite <- (app_nil_r st) at 1.
  apply newItems_spec_gen; auto. intros x y [].
Qed.

(** The [j]-th call of [webhook.send] made by the loop is for the [j]-th
    new item; when it fails, the loop is left with the items before it
    pushed, and no other. *)
Lemma loop_failure (w : World) (items : list JSValue) :
  forall k st j item embed e final evs err,
    loop w k (JArr st) items = (final, evs, err) ->
    nth_error (sends evs) j = Some (item, embed) ->
    send w (k + j) embed = Throw e ->
    nth_error (newItems st items) j = Some item /\
    final = JArr (st ++ firstn j (newItems st items)).
Proof.
  induction items as [|x rest IH]; intros k st j item embed e final evs err H Hj Hfail.
  - injection H as <- <- <-. destruct j; discriminate Hj.
  - cbn [newItems]. loop_step H; cbn [sends] in Hj.
    + eauto.
    + destruct (push_array _ _ _ Hscan) as (st' & Hst & Hp).
      injection Hst as <-. rewrite Hp in Hpush. injection Hpush as <-.
      destruct j as [|j].
      * injection Hj as <- <-. rewrite Nat.add_0_r in Hfail. congruence.
      * cbn [nth_error] in Hj. rewrite Nat.add_succ_r in Hfail.
        destruct (IH (Datatypes.S k) (st ++ [x])%list j item embed e _ _ _ Hrest Hj Hfail)
          as [Hnth ->].
        split; [exact Hnth|].
        cbn [firstn]. rewrite <- app_assoc. reflexivity.
    + destruct j as [|[|j]]; try discriminate Hj.
      injection Hj as <- <-. rewrite Nat.add_0_r in Hfail. congruence.
    + destruct (push_array _ _ _ Hscan) as (st' & Hst & Hp). congruence.
    + destruct j as [|[|j]]; try discriminate Hj.
      injection Hj as <- <-. split; [reflexivity|].
      cbn [firstn]. now rewrite app_nil_r.
    + destruct j; discriminate Hj.
    + destruct j; discriminate Hj.
Qed.

(** C2. If the [N]-th call of [webhook.send] in a run fails, it is the call
    for the [N]-th new item, and the state written at the end of the run is
    the loaded state followed by the first [N-1] new items in feed order,
    and nothing else.  New is meant as the loop means it, an item that
    matches no loaded record and no item delivered before it; when state
    and feed hold records and no key occurs twice in the feed, these are
    the reports whose key is not among the keys of the loaded state. *)
Theorem partial_failure_state (w : World) (st feed : list JSValue) (N : nat)
    (item : JSValue) (embed : Embed) (e : JSError) :
  loadState (readFile w) = Ok (JArr st) ->
  todaysresults w = Ok (JArr feed) ->
  (1 <= N)%nat ->
  nth_error (sends (trace (script w))) (N - 1) = Some (item, embed) ->
  send w (N - 1) embed = Throw e ->
  nth_error (newItems st feed) (N - 1) = Some item /\
  persisted (trace (script w)) = [JArr (st ++ firstn (N - 1) (newItems st feed))] /\
  (Forall (fun v => isNullish v = false) st ->
   Forall (fun v => isNullish v = false) feed ->
   distinctKeys feed = true ->
   newItems st feed = newItems_spec st feed).
Proof.
  intros Hload Hdata HN Hnth Hfail.
  assert (passesStartup w = true) as Hstart.
  { destruct (passesStartup w) eqn:Hs; [reflexivity|].
    rewrite (proj1 (script_stopped w Hs)) in Hnth.
    destruct (N - 1)%nat; discriminate Hnth. }
  rewrite (script_is_main w Hstart) in *.
  destruct (main_structure w _ Hload) as (final & evs1 & err & post & Htry & Htr & Hpost).
  destruct (epilogue_quiet _ Hpost) as (Hs & _ & Hp).
  destruct (catch_quiet err) as (Hs' & _ & Hp').
  rewrite Htr in *. clear Htr.
  rewrite !persisted_app, (try_block_writes_nothing _ _ _ _ _ Htry), Hp'.
  cbn [persisted app]. rewrite Hp.
  rewrite !sends_app in Hnth. cbn [sends] in Hnth.
  rewrite Hs, Hs', !app_nil_r in Hnth.
  destruct (try_block_cases _ _ _ _ _ Htry)
    as [(_ & Hs1 & _) | (data & items & evs & _ & Hd & Hi & Hl & ->)].
  - rewrite Hs1 in Hnth. destruct (N - 1)%nat; discriminate Hnth.
  - rewrite Hdata in Hd. injection Hd as <-. injection Hi as <-.
    cbn [sends] in Hnth.
    destruct (loop_failure w feed 0 st (N - 1) item embed e _ _ _ Hl Hnth Hfail)
      as [H1 ->].
    split; [exact H1|]. split; [reflexivity|].
    apply newItems_is_spec.
Qed.

(** Four reports come back, the second of them already stored; the
    delivery of the second new one, BBB, fails.  The state written is the
    stored record followed by AAA alone. *)
Lemma partial_failure_state_witness :
  newItems_spec [HCA_stored] [AAA; HCA; BBB; CCC] = [AAA; BBB; CCC] /\
  persisted (trace (script second_send_fails)) = [JArr [HCA_stored; AAA]].
Proof.
  assert (exists embed,
            nth_error (sends (trace (script second_send_fails))) (2 - 1)
            = Some (BBB, embed)) as [embed Hnth].
  { vm_compute. eexists. reflexivity. }
  destruct (partial_failure_state second_send_fails [HCA_stored] [AAA; HCA; BBB; CCC]
              2 BBB embed rejected) as (_ & Hp & Hspec).
  - vm_compute. reflexivity.
  - reflexivity.
  - lia.
  - exact Hnth.
  - reflexivity.
  - split.
    + rewrite <- Hspec.
      * vm_compute. reflexivity.
      * repeat constructor.
      * repeat constructor.
      * vm_compute. reflexivity.
    + rewrite Hp. vm_compute. reflexivity.
Defined.

(** ** An answer that is not an array *)


(** What the run does with the HTML page when the webhook takes what it
    is given: the first character is taken for a report, formatted and
    delivered, and recorded in the state; the characters after it match
    it, all their keys being [undefined]. *)
Lemma string_answer_is_delivered :
  map fst (sends (trace (script html_answer))) = [JStr "<"] /\
  persisted (trace (script html_answer)) = [JArr [JStr "<"]] /\
  exitCode (script html_answer) = 0.
Proof. vm_compute. repeat split. Qed.






(** ** Formatting *)

(** Case analysis on the outermost computation of a chain of [bind]s in
    the goal. *)
Ltac step_bind :=
  match goal with
  | |- context [bind ?r _] => destruct r eqn:?; cbn [bind]
  end.

(** [format] uses its host in two places only, the reading of the clock
    and the rendering of the date, and neither decides whether it throws. *)
Lemma format_hosts (h1 h2 : Host) (item : JSValue) :
  match format h1 item, format h2 item with
  | Ok e1, Ok e2 =>
      color e2 = color e1 /\ title e2 = title e1 /\ url e2 = url e1 /\
      author e2 = author e1 /\ description e2 = description e1 /\
      footer e2 = footer e1 /\
      map name (fields e2) = map name (fields e1) /\
      map inline (fields e2) = map inline (fields e1) /\
      tl (map value (fields e2)) = tl (map value (fields e1)) /\
      (now h1 = now h2 ->
       (forall v, dateString h1 v = dateString h2 v) -> e1 = e2)
  | Throw x1, Throw x2 => x1 = x2
  | _, _ => False
  end.
Proof.
  unfold format. repeat (step_bind; [|reflexivity]).
  repeat split. intros Hnow Hdate. rewrite Hnow, Hdate. reflexivity.
Qed.




Ltac invert_bind H :=
  match type of H with
  | context [bind ?r _] => destruct r eqn:?; cbn [bind] in H; [|discriminate H]
  end.

Lemma nullish_falsy (v : JSValue) : isNullish v = true -> ToBoolean v = false.
Proof. destruct v; simpl; try discriminate; reflexivity. Qed.

Lemma field_of_getProp (item : JSValue) (k : string) (v : JSValue) :
  getProp item k = Ok v -> field item k = v.
Proof. unfold field. now intros ->. Qed.

(** The nine guarded fields do show "N/A" for a property that is [null] or
    missing. *)
Lemma format_renders_NA (h : Host) (item : JSValue) (e : Embed) :
  format h item = Ok e ->
  Forall (fun '(k, fname) =>
            isNullish (field item k) = true ->
            fieldValue fname e = Some (JStr "N/A"))
         guarded_fields.
Proof.
  intros H. unfold format in H. repeat invert_bind H. injection H as <-.
  repeat match goal with
         | G : getProp item _ = Ok _ |- _ => apply field_of_getProp in G
         end.
  unfold guarded_fields.
  repeat (apply Forall_cons; [intros Hn|]); try apply Forall_nil;
    cbn [fieldValue fields find name value String.eqb Ascii.eqb Bool.eqb option_map];
    f_equal;
    repeat match goal with
           | G : field item ?k = ?v, Hn : isNullish (field item ?k) = true |- _ =>
               rewrite G in Hn; clear G
           end.
  all: try match goal with
           | G : fmtMoney ?v = Ok ?s, Hn : isNullish ?v = true |- JStr ?s = _ =>
               unfold fmtMoney in G; rewrite Hn in G; injection G as <-; reflexivity
           | G : percentage _ _ ?v = Ok ?s, Hn : isNullish ?v = true |- JStr ?s = _ =>
               unfold percentage in G; rewrite Hn in G; injection G as <-; reflexivity
           | G : or_else ?v _ = Ok ?s, Hn : isNullish ?v = true |- ?s = _ =>
               unfold or_else in G; rewrite (nullish_falsy _ Hn) in G;
               injection G as <-; reflexivity
           | G : (if ToBoolean ?v then _ else _) = Ok ?s, Hn : isNullish ?v = true
             |- JStr ?s = _ =>
               rewrite (nullish_falsy _ Hn) in G; injection G as <-; reflexivity
           end.
Qed.


(** ** The log line of a delivery *)

Lemma ToPrimitive_ToString (v p : JSValue) :
  ToPrimitive v = Ok p -> exists s, ToString v = Ok s.
Proof.
  destruct v; try (intros _; simpl; eauto; fail).
  - destruct b; simpl; eauto.
  - unfold ToPrimitive. destruct (ToString (JArr items)); [eauto|discriminate].
  - unfold ToPrimitive. destruct (ToString (JObj props)); [eauto|discriminate].
Qed.

(** Line 181 interpolates what line 92 and line 98 have converted before:
    once an item is formatted, its log line does not throw. *)
Lemma postedLine_after_format (h : Host) (item : JSValue) (e : Embed) :
  format h item = Ok e -> exists line, postedLine item = Ok line.
Proof.
  intros H. unfold format in H. repeat invert_bind H. unfold postedLine.
  repeat match goal with
         | G : getProp item ?k = Ok _ |- context [getProp item ?k] => rewrite G
         | G : ToString ?v = Ok _ |- context [ToString ?v] => rewrite G
         | |- _ => progress cbn [bind]
         end.
  match goal with
  | G : ToPrimitive ?v = Ok _ |- _ =>
      destruct (ToPrimitive_ToString _ _ G) as [d ->]
  end.
  cbn [bind]. eauto.
Qed.

(* ================================================================== *)
(** * Further properties of the run *)
(* ================================================================== *)

(** ** What the state file receives *)


Lemma gets_app (a b : list Event) : gets (a ++ b) = (gets a ++ gets b)%list.
Proof. induction a as [|[] a IH]; simpl; try rewrite IH; reflexivity. Qed.

(** Resolves the scan and the push of an iteration that went past the
    scan, the state being the array [st]. *)
Ltac array_push Hscan Hpush :=
  let st' := fresh "st'" in
  let Hst := fresh "Hst" in
  let Hp := fresh "Hp" in
  destruct (push_array _ _ _ Hscan) as (st' & Hst & Hp);
  injection Hst as <-; rewrite Hp in Hpush;
  first [ injection Hpush as <- | discriminate Hpush ].

(** The loop leaves the array it was given with the accepted items added
    at its end, in the order of their calls. *)
Lemma loop_accepts (w : World) (items : list JSValue) :
  forall k st final evs err,
    loop w k (JArr st) items = (final, evs, err) ->
    final = JArr (st ++ accepted w k (sends evs)).
Proof.
  induction items as [|x rest IH]; intros k st final evs err H.
  - injection H as <- <- <-. simpl. now rewrite app_nil_r.
  - loop_step H; cbn [sends accepted].
    + eauto.
    + array_push Hscan Hpush. rewrite Hsend. cbn [succeeded].
      rewrite (IH _ _ _ _ _ Hrest), <- app_assoc. reflexivity.
    + array_push Hscan Hpush. rewrite Hsend. reflexivity.
    + array_push Hscan Hpush.
    + rewrite Hsend. simpl. now rewrite app_nil_r.
    + simpl. now rewrite app_nil_r.
    + simpl. now rewrite app_nil_r.
Qed.

(** X1. In a run that passes startup and loads an array, the state that is
    written is the loaded array followed by the items of exactly those
    calls of [webhook.send] that succeeded, in the order of the calls:
    nothing loaded is dropped or moved, and nothing undelivered is added. *)
Theorem state_is_loaded_plus_accepted (w : World) (st : list JSValue) :
  passesStartup w = true ->
  loadState (readFile w) = Ok (JArr st) ->
  persisted (trace (script w))
  = [JArr (st ++ accepted w 0 (sends (trace (script w))))].
Proof.
  intros Hstart Hload. rewrite (script_is_main w Hstart).
  destruct (main_structure w _ Hload) as (final & evs1 & err & post & Htry & -> & Hpost).
  destruct (epilogue_quiet _ Hpost) as (Hs & _ & Hp).
  destruct (catch_quiet err) as (Hs' & _ & Hp').
  rewrite !persisted_app, !sends_app, (try_block_writes_nothing _ _ _ _ _ Htry).
  cbn [persisted sends app]. rewrite Hs, Hs', Hp, Hp', !app_nil_r.
  destruct (try_block_cases _ _ _ _ _ Htry)
    as [(-> & Hs1 & _) | (data & items & evs & _ & _ & _ & Hl & ->)].
  - rewrite Hs1. simpl. now rewrite app_nil_r.
  - cbn [sends]. now rewrite (loop_accepts _ _ _ _ _ _ _ Hl).
Qed.

(** With HCA stored and the second of three deliveries refused, AAA is
    added and BBB and CCC are not. *)
Lemma state_is_loaded_plus_accepted_witness :
  accepted second_send_fails 0 (sends (trace (script second_send_fails))) = [AAA] /\
  persisted (trace (script second_send_fails)) = [JArr [HCA_stored; AAA]].
Proof.
  split; [vm_compute; reflexivity|].
  rewrite (state_is_loaded_plus_accepted second_send_fails [HCA_stored]).
  - vm_compute. reflexivity.
  - reflexivity.
  - vm_compute. reflexivity.
Defined.

(** ** The exit code *)

Lemma totalLine_array (st : list JSValue) : exists line, totalLine (JArr st) = Ok line.
Proof. unfold totalLine. cbn [lengthOf bind ToString]. eauto. Qed.

(** X2. The script ends with exit code 0 exactly when it passes startup,
    the one write of the state succeeds and the line that reports the
    number of records can be printed; a rejected request or a rejected
    delivery does not enter into it. *)
Theorem exit_code_zero_iff (w : World) :
  exitCode (script w) = 0 <->
  passesStartup w = true /\
  exists final,
    persisted (trace (script w)) = [final] /\
    succeeded (writeFile w final) = true /\
    succeeded (totalLine final) = true.
Proof.
  destruct (passesStartup w) eqn:Hstart.
  - rewrite (script_is_main w Hstart).
    destruct (loadState_total (readFile w)) as [state Hload].
    unfold main. rewrite Hload.
    destruct (try_block w state) as [[final evs1] err] eqn:Htry.
    pose proof (try_block_writes_nothing _ _ _ _ _ Htry) as Hp1.
    destruct (catch_quiet err) as (_ & _ & Hp2).
    unfold finally_block, saveState.
    destruct (writeFile w final) as [[]|e] eqn:Hw;
      [destruct (totalLine final) as [line|e] eqn:Ht|];
      cbn [trace exitCode]; rewrite !persisted_app, Hp1, Hp2; cbn [persisted app].
    + split; [intros _|reflexivity]. split; [reflexivity|].
      exists final. rewrite Hw, Ht. auto.
    + split; [discriminate|]. intros [_ (f & Hf & _ & Hok)].
      injection Hf as <-. rewrite Ht in Hok. discriminate Hok.
    + split; [discriminate|]. intros [_ (f & Hf & Hok & _)].
      injection Hf as <-. rewrite Hw in Hok. discriminate Hok.
  - split; [|intros [H _]; discriminate H].
    unfold script, passesStartup in *.
    destruct (DISCORD_EARNINGS_WEBHOOK w) as [[|c s]|]; try discriminate;
      destruct (newWebhookClient w); try discriminate.
Qed.

(** The scenario ends with 0; so does the run whose second delivery is
    refused; the run that cannot write its state ends with 1. *)
Lemma exit_code_zero_iff_witness :
  exitCode (script scenario) = 0 /\
  exitCode (script second_send_fails) = 0 /\
  exitCode (script write_fails) <> 0.
Proof.
  split; [|split].
  - apply exit_code_zero_iff. split; [reflexivity|].
    exists (JArr [HCA_stored; CNC]). vm_compute. auto.
  - apply exit_code_zero_iff. split; [reflexivity|].
    exists (JArr [HCA_stored; AAA]). vm_compute. auto.
  - intros H. apply exit_code_zero_iff in H. destruct H as [_ (f & Hf & Hok & _)].
    vm_compute in Hok. discriminate Hok.
Defined.

(** X3. When the state is an array and writing it succeeds, a run that
    passes startup ends with exit code 0 whatever the requests and the
    webhook did. *)
Theorem delivery_errors_keep_exit_code (w : World) (st : list JSValue) :
  passesStartup w = true ->
  loadState (readFile w) = Ok (JArr st) ->
  (forall state, writeFile w state = Ok tt) ->
  exitCode (script w) = 0.
Proof.
  intros Hstart Hload Hwrite. rewrite (script_is_main w Hstart).
  unfold main. rewrite Hload.
  destruct (try_block w (JArr st)) as [[final evs1] err] eqn:Htry.
  assert (exists st', final = JArr st') as [st' ->].
  { destruct (try_block_cases _ _ _ _ _ Htry)
      as [(-> & _) | (data & items & evs & _ & _ & _ & Hl & _)]; [eauto|].
    rewrite (loop_accepts _ _ _ _ _ _ _ Hl). eauto. }
  unfold finally_block, saveState. rewrite Hwrite.
  destruct (totalLine_array st') as [line ->]. reflexivity.
Qed.

Lemma delivery_errors_keep_exit_code_witness :
  errors (trace (script fetch_fails)) = [Rejected "axios: status 403"] /\
  exitCode (script fetch_fails) = 0.
Proof.
  split; [vm_compute; reflexivity|].
  apply (delivery_errors_keep_exit_code fetch_fails [HCA_stored]).
  - reflexivity.
  - vm_compute. reflexivity.
  - reflexivity.
Defined.

(** ** A state file that is not an array *)

Lemma loop_without_array (w : World) (items : list JSValue) :
  forall k state,
    (forall st, state <> JArr st) ->
    exists err, loop w k state items = (state, [], err).
Proof.
  induction items as [|x rest IH]; intros k state Hna.
  - eexists. reflexivity.
  - cbn [loop]. destruct state; try (eexists; reflexivity).
    exfalso. now apply (Hna items).
Qed.



(** ** What is sent *)

Lemma format_timestamp (h : Host) (item : JSValue) (e : Embed) :
  format h item = Ok e -> timestamp e = now h.
Proof.
  intros H. unfold format in H. repeat invert_bind H. injection H as <-. reflexivity.
Qed.

Lemma loop_sends_format (w : World) (items : list JSValue) :
  forall k state j x e final evs err,
    loop w k state items = (final, evs, err) ->
    nth_error (sends evs) j = Some (x, e) ->
    format (mkHost (toLocaleString w) (clock w (k + j))) x = Ok e.
Proof.
  induction items as [|y rest IH]; intros k state j x e final evs err H Hj.
  - injection H as <- <- <-. destruct j; discriminate Hj.
  - loop_step H; cbn [sends] in Hj.
    + eauto.
    + destruct j as [|j].
      * injection Hj as <- <-. now rewrite Nat.add_0_r.
      * cbn [nth_error] in Hj. rewrite Nat.add_succ_r.
        exact (IH _ _ _ _ _ _ _ _ Hrest Hj).
    + destruct j as [|[|j]]; try discriminate Hj.
      injection Hj as <- <-. now rewrite Nat.add_0_r.
    + destruct j as [|[|j]]; try discriminate Hj.
      injection Hj as <- <-. now rewrite Nat.add_0_r.
    + destruct j as [|[|j]]; try discriminate Hj.
      injection Hj as <- <-. now rewrite Nat.add_0_r.
    + destruct j; discriminate Hj.
    + destruct j; discriminate Hj.
Qed.

(** The calls of [webhook.send] of a run are those of its loop. *)
Lemma script_sends (w : World) :
  sends (trace (script w)) = [] \/
  exists state items final evs err,
    passesStartup w = true /\
    loadState (readFile w) = Ok state /\
    (exists data, todaysresults w = Ok data /\ iterate data = Ok items) /\
    warmup w = Ok tt /\
    loop w 0 state items = (final, evs, err) /\
    sends (trace (script w)) = sends evs /\
    formatted (trace (script w)) = formatted evs.
Proof.
  destruct (passesStartup w) eqn:Hstart.
  - rewrite (script_is_main w Hstart).
    destruct (loadState_total (readFile w)) as [state Hload].
    destruct (main_structure w _ Hload) as (final & evs1 & err & post & Htry & -> & Hpost).
    destruct (epilogue_quiet _ Hpost) as (Hs & Hf & _).
    destruct (catch_quiet err) as (Hs' & Hf' & _).
    rewrite !sends_app, !formatted_app. cbn [sends formatted].
    rewrite Hs, Hs', Hf, Hf', !app_nil_r.
    destruct (try_block_cases _ _ _ _ _ Htry)
      as [(_ & Hs1 & _) | (data & items & evs & Hw & Hd & Hi & Hl & ->)].
    + left. exact Hs1.
    + right. exists state, items, final, evs, err. cbn [sends formatted]. eauto 10.
  - left. apply (script_stopped w Hstart).
Qed.

(** X5. The embed handed to the [k]-th call of [webhook.send] is the one
    that formatting gives for the item of that call at the [k]-th reading
    of the clock, and it carries that reading as its timestamp. *)
Theorem sent_embed_is_formatted (w : World) (k : nat) (x : JSValue) (e : Embed) :
  nth_error (sends (trace (script w))) k = Some (x, e) ->
  format (mkHost (toLocaleString w) (clock w k)) x = Ok e /\
  timestamp e = clock w k.
Proof.
  intros Hk.
  destruct (script_sends w)
    as [Hnone | (state & items & final & evs & err & _ & _ & _ & _ & Hl & Hs & _)].
  - rewrite Hnone in Hk. destruct k; discriminate Hk.
  - rewrite Hs in Hk.
    pose proof (loop_sends_format w items 0 state k x e _ _ _ Hl Hk) as Hf.
    cbn [Nat.add] in Hf. split; [exact Hf|].
    apply (format_timestamp _ _ _ Hf).
Qed.

(** The second call of the run whose second delivery is refused: it is
    for BBB, three seconds after the first. *)
Lemma sent_embed_is_formatted_witness :
  exists e,
    nth_error (sends (trace (script second_send_fails))) 1 = Some (BBB, e) /\
    title e = red_circle ++ " BBB — BBB Missed Expectations" /\
    timestamp e = 1753620003000.
Proof.
  assert (exists e, nth_error (sends (trace (script second_send_fails))) 1
                    = Some (BBB, e)) as [e He]
    by (vm_compute; eexists; reflexivity).
  destruct (sent_embed_is_formatted second_send_fails 1 BBB e He) as [Hf Ht].
  exists e. split; [exact He|]. split; [|rewrite Ht; reflexivity].
  vm_compute in Hf. injection Hf as <-. reflexivity.
Defined.

(** ** A report that cannot be formatted *)

Lemma format_throws_everywhere (h1 h2 : Host) (item : JSValue) (e : JSError) :
  format h1 item = Throw e -> format h2 item = Throw e.
Proof.
  intros H. pose proof (format_hosts h1 h2 item) as Hh. rewrite H in Hh.
  destruct (format h2 item); [contradiction|now subst].
Qed.

(** The items of the calls made by the loop are the first new items. *)
Lemma loop_sends_newItems (w : World) (items : list JSValue) :
  forall k st final evs err,
    loop w k (JArr st) items = (final, evs, err) ->
    map fst (sends evs) = firstn (List.length (sends evs)) (newItems st items).
Proof.
  induction items as [|x rest IH]; intros k st final evs err H.
  - injection H as <- <- <-. reflexivity.
  - cbn [newItems]. loop_step H; cbn [sends map List.length firstn fst].
    + eauto.
    + array_push Hscan Hpush. f_equal. eauto.
    + reflexivity.
    + reflexivity.
    + reflexivity.
    + reflexivity.
    + reflexivity.
Qed.

(** X6. A new item whose formatting throws is never handed to the webhook,
    and neither is any new item after it: if it is the [j]-th new item
    (counting from 0), a run makes at most [j] calls of [webhook.send]. *)
Theorem unformattable_item_blocks (w : World) (st feed : list JSValue) (j : nat)
    (x : JSValue) (h : Host) (e : JSError) :
  loadState (readFile w) = Ok (JArr st) ->
  todaysresults w = Ok (JArr feed) ->
  nth_error (newItems st feed) j = Some x ->
  format h x = Throw e ->
  (List.length (sends (trace (script w))) <= j)%nat.
Proof.
  intros Hload Hdata Hj Hthrow.
  destruct (script_sends w)
    as [Hnone | (state & items & final & evs & err & _ & Hl0 & (d & Hd & Hi) & _ & Hl & Hs & _)].
  - rewrite Hnone. simpl. lia.
  - rewrite Hs. rewrite Hload in Hl0. injection Hl0 as <-.
    rewrite Hdata in Hd. injection Hd as <-. injection Hi as <-.
    destruct (Nat.le_gt_cases (List.length (sends evs)) j) as [Hle|Hgt]; [exact Hle|].
    exfalso.
    pose proof (loop_sends_newItems w feed 0 st _ _ _ Hl) as Hpre.
    destruct (nth_error (sends evs) j) as [[y emb]|] eqn:Hnth;
      [|apply nth_error_None in Hnth; lia].
    pose proof (loop_sends_format w feed 0 (JArr st) j y emb _ _ _ Hl Hnth) as Hf.
    assert (nth_error (map fst (sends evs)) j = Some y) as Hy
      by (rewrite nth_error_map, Hnth; reflexivity).
    rewrite Hpre, nth_error_firstn in Hy.
    destruct (Nat.ltb_spec j (List.length (sends evs))) as [_|Hge]; [|lia].
    rewrite Hj in Hy. injection Hy as <-.
    rewrite (format_throws_everywhere _ _ _ _ Hthrow) in Hf. discriminate Hf.
Qed.

(** BAD, whose summary is a number, comes second in the feed: AAA is sent
    and recorded, BAD and CCC are not, in this run and in any other. *)
Lemma unformattable_item_blocks_witness :
  (List.length (sends (trace (script poisoned_feed))) <= 1)%nat /\
  map fst (sends (trace (script poisoned_feed))) = [AAA] /\
  errors (trace (script poisoned_feed))
    = [TypeError "item.summary.replace is not a function"].
Proof.
  split; [|split; vm_compute; reflexivity].
  apply (unformattable_item_blocks poisoned_feed [HCA_stored] [AAA; BAD; CCC] 1 BAD
           (mkHost plain_date 0) (TypeError "item.summary.replace is not a function")).
  - vm_compute. reflexivity.
  - reflexivity.
  - vm_compute. reflexivity.
  - vm_compute. reflexivity.
Defined.

(** ** Pacing *)

Lemma paced_quiet (l : list Event) : sends l = [] -> forall b, paced b l = true.
Proof.
  induction l as [|ev l IH]; intros H b; [reflexivity|].
  destruct ev; cbn [paced sends] in *; try discriminate H; auto.
Qed.

Lemma paced_app_quiet (l1 l2 : list Event) :
  sends l2 = [] -> forall b, paced b (l1 ++ l2) = paced b l1.
Proof.
  intros H. induction l1 as [|ev l1 IH]; intros b.
  - simpl. now apply paced_quiet.
  - destruct ev; cbn [paced app]; rewrite ?IH; reflexivity.
Qed.

Lemma loop_paced (w : World) (items : list JSValue) :
  forall k state final evs err,
    loop w k state items = (final, evs, err) -> paced true evs = true.
Proof.
  induction items as [|x rest IH]; intros k state final evs err H.
  - injection H as <- <- <-. reflexivity.
  - loop_step H; cbn [paced andb orb]; try reflexivity; eauto.
Qed.

(** X7. In every run, no call of [webhook.send] follows another without a
    pause of at least [SLEEP_BETWEEN_SENDS] milliseconds between the two. *)
Theorem sends_are_paced (w : World) : paced true (trace (script w)) = true.
Proof.
  destruct (passesStartup w) eqn:Hstart.
  - rewrite (script_is_main w Hstart).
    destruct (loadState_total (readFile w)) as [state Hload].
    destruct (main_structure w _ Hload) as (final & evs1 & err & post & Htry & -> & Hpost).
    destruct (epilogue_quiet _ Hpost) as (Hs & _ & _).
    destruct (catch_quiet err) as (Hs' & _ & _).
    rewrite paced_app_quiet
      by (rewrite sends_app; cbn [sends]; rewrite Hs, Hs'; reflexivity).
    destruct (try_block_cases _ _ _ _ _ Htry)
      as [(_ & Hs1 & _) | (data & items & evs & _ & _ & _ & Hl & ->)].
    + now apply paced_quiet.
    + cbn [paced]. exact (loop_paced _ _ _ _ _ _ _ Hl).
  - apply paced_quiet. apply (script_stopped w Hstart).
Qed.

(** ** No report twice in a run *)

Lemma some_false (f : JSValue -> Result bool) (l : list JSValue) :
  some f l = Ok false -> forall e, In e l -> f e = Ok false.
Proof.
  induction l as [|x l IH]; intros H e He; [contradiction|].
  cbn [some] in H. destruct (f x) as [[|]|err] eqn:Hx; cbn [bind] in H;
    try discriminate H.
  destruct He as [<-|He]; auto.
Qed.

Lemma format_nonnullish (h : Host) (x : JSValue) (e : Embed) :
  format h x = Ok e -> isNullish x = false.
Proof. destruct x; try reflexivity; discriminate. Qed.

Lemma loop_sends_fresh (w : World) (items : list JSValue) :
  forall k st final evs err,
    loop w k (JArr st) items = (final, evs, err) ->
    Forall (fun y => isNullish y = false /\
                     forall e, In e st -> sameReport y e = Ok false)
           (map fst (sends evs)) /\
    ForallOrdPairs (fun x y => sameKey x y = false) (map fst (sends evs)).
Proof.
  induction items as [|x rest IH]; intros k st final evs err H.
  - injection H as <- <- <-. split; constructor.
  - loop_step H; cbn [sends map fst];
      try (assert (isNullish x = false /\
                   forall e, In e st -> sameReport x e = Ok false) as Hx
             by (split; [exact (format_nonnullish _ _ _ Hformat)
                        |exact (some_false _ _ Hscan)])).
    + eauto.
    + array_push Hscan Hpush.
      destruct (IH _ _ _ _ _ Hrest) as [Hall Hpairs].
      split.
      * constructor; [exact Hx|].
        apply (Forall_impl _ (P := fun y => isNullish y = false /\
                 forall e, In e (st ++ [x]) -> sameReport y e = Ok false));
          [|exact Hall].
        intros y [Hy Hin]. split; [exact Hy|].
        intros e He. apply Hin. apply in_or_app. now left.
      * constructor; [|exact Hpairs].
        apply (Forall_impl _ (P := fun y => isNullish y = false /\
                 forall e, In e (st ++ [x]) -> sameReport y e = Ok false));
          [|exact Hall].
        intros y [Hy Hin].
        assert (sameReport y x = Ok false) as Hyx
          by (apply Hin; apply in_or_app; right; now left).
        rewrite (sameReport_sameKey y x Hy (proj1 Hx)) in Hyx. now injection Hyx.
    + split; repeat constructor; apply Hx.
    + split; repeat constructor; apply Hx.
    + split; repeat constructor; apply Hx.
    + split; constructor.
    + split; constructor.
Qed.

(** X8. No two calls of [webhook.send] in one run are for reports with the
    same key: of any two items sent, the later one differs from the earlier
    one in [epsDate] or in [ticker]. *)
Theorem sends_have_distinct_keys (w : World) :
  ForallOrdPairs (fun x y => sameKey x y = false)
                 (map fst (sends (trace (script w)))).
Proof.
  destruct (script_sends w)
    as [Hnone | (state & items & final & evs & err & _ & _ & _ & _ & Hl & -> & _)].
  - rewrite Hnone. constructor.
  - destruct state; try apply (loop_sends_fresh _ _ _ _ _ _ _ Hl);
      match type of Hl with
      | loop _ _ ?s _ = _ =>
          let Hna := fresh "Hna" in
          assert (forall st, s <> JArr st) as Hna by (intros st; discriminate);
          destruct (loop_without_array w items 0 s Hna) as [err' Hl']
      end;
      rewrite Hl' in Hl; injection Hl as <- <- <-; constructor.
Qed.

(** The feed carries AAA twice before BBB: one call is made for AAA. *)
Example repeated_report_sent_once :
  map fst (sends (trace (script repeated_report))) = [AAA; BBB].
Proof. vm_compute. reflexivity. Qed.

(** ** Running again *)








(** ** The two requests *)

Lemma loop_requests_nothing (w : World) (items : list JSValue) :
  forall k state final evs err,
    loop w k state items = (final, evs, err) -> gets evs = [].
Proof.
  induction items as [|x rest IH]; intros k state final evs err H.
  - injection H as <- <- <-. reflexivity.
  - loop_step H; cbn [gets]; try reflexivity; eauto.
Qed.

(** X10. A run that passes startup requests the warm-up page once, first
    of all, and the data once, after it, if and only if the warm-up
    succeeded; no other request is made, and none without startup. *)
Theorem requests_of_a_run (w : World) :
  gets (trace (script w)) =
  if passesStartup w
  then if succeeded (warmup w) then [warmup_url; data_url] else [warmup_url]
  else [].
Proof.
  destruct (passesStartup w) eqn:Hstart.
  - rewrite (script_is_main w Hstart).
    destruct (loadState_total (readFile w)) as [state Hload].
    destruct (main_structure w _ Hload) as (final & evs1 & err & post & Htry & -> & Hpost).
    rewrite !gets_app. cbn [gets].
    assert (gets post = []) as ->.
    { clear - Hpost. induction post as [|ev post IH]; [reflexivity|].
      cbn [forallb] in Hpost. apply andb_true_iff in Hpost.
      destruct Hpost as [Hev Hpost]. destruct ev; try discriminate Hev; cbn [gets]; auto. }
    assert (gets (catch_block err) = []) as -> by (destruct err; reflexivity).
    rewrite !app_nil_r. unfold try_block in Htry.
    destruct (warmup w) as [[]|e]; cbn [succeeded].
    + destruct (todaysresults w) as [data|e].
      * destruct (iterate data) as [items|e].
        -- destruct (loop w 0 state items) as [[f evs] er] eqn:Hl.
           injection Htry as <- <- <-. cbn [gets].
           now rewrite (loop_requests_nothing _ _ _ _ _ _ _ Hl).
        -- injection Htry as <- <- <-. reflexivity.
      * injection Htry as <- <- <-. reflexivity.
    + injection Htry as <- <- <-. reflexivity.
  - unfold script, passesStartup in *.
    destruct (DISCORD_EARNINGS_WEBHOOK w) as [[|c s]|]; try reflexivity;
      destruct (newWebhookClient w); try discriminate; reflexivity.
Qed.

(* ================================================================== *)
(** * Further properties of formatting *)
(* ================================================================== *)

(** ** When the classification throws *)

(** X11. [statusEmoji] throws exactly when the item is [null] or
    [undefined], or its subject is a number, a boolean or an object; on a
    subject that is missing, [null], a string or an array it returns. *)
Theorem statusEmoji_throws_iff (item : JSValue) :
  succeeded (statusEmoji item)
  = andb (negb (isNullish item)) (hasIncludes (field item "subject")).
Proof.
  destruct (isNullish item) eqn:Hn.
  - destruct item; try discriminate Hn; reflexivity.
  - unfold statusEmoji, subjectHas.
    rewrite (getProp_field item "subject" Hn). cbn [bind negb andb].
    destruct (field item "subject") as [| |b|x|s|l|ps];
      cbn [optIncludes bind or_else ToBoolean hasIncludes]; try reflexivity.
    + destruct (includes s "Beat Expectations"); cbn [bind ToBoolean];
        [reflexivity|].
      destruct (includes s "Beat Consensus Estimates"); cbn [bind ToBoolean];
        [reflexivity|].
      destruct (includes s "Missed Expectations"); cbn [bind ToBoolean];
        [reflexivity|].
      destruct (includes s "Missed Consensus Estimates"); reflexivity.
    + destruct (existsb _ l); cbn [bind ToBoolean]; [reflexivity|].
      destruct (existsb _ l); cbn [bind ToBoolean]; [reflexivity|].
      destruct (existsb _ l); cbn [bind ToBoolean]; [reflexivity|].
      destruct (existsb _ l); reflexivity.
Qed.


(** ** Amounts that are not numbers *)

Lemma SFcompare_None (a b : spec_float) :
  SFcompare a b = None -> a = S754_nan \/ b = S754_nan.
Proof.
  destruct a as [sa|sa| |sa ma ea], b as [sb|sb| |sb mb eb]; cbn [SFcompare];
    try discriminate; auto.
Qed.

(** A number that is at least 1 and not above 999 is at most 999. *)
Lemma not_gt_leb (x : float) :
  PrimFloat.leb 1 x = true -> PrimFloat.ltb 999 x = false ->
  PrimFloat.leb x 999 = true.
Proof.
  rewrite (leb_spec 1 x), (ltb_spec 999 x), (leb_spec x 999). unfold SFleb, SFltb.
  rewrite (SFcompare_antisym (Prim2SF 999) (Prim2SF x)).
  destruct (SFcompare (Prim2SF 999) (Prim2SF x)) as [[ | | ]|] eqn:Hc; cbn [option_map CompOpp];
    try reflexivity; try discriminate.
  intros H1 _. exfalso.
  destruct (SFcompare_None _ _ Hc) as [H|H].
  - rewrite Prim2SF_999 in H. discriminate H.
  - rewrite H in H1. rewrite Prim2SF_1 in H1. discriminate H1.
Qed.

(** X12. On a value that is not a number, [fmtMoney] formats the number
    that the value converts to just as it formats that number, except
    between 1 and 999: there it calls [toFixed] on the value itself and
    throws. *)
Theorem fmtMoney_of_non_number (m : JSValue) (x : float) :
  isNullish m = false ->
  (forall y, m <> JNum y) ->
  ToNumber m = Ok x ->
  fmtMoney m =
  if andb (PrimFloat.leb 1 x) (PrimFloat.leb x 999)
  then Throw (TypeError "m.toFixed is not a function")
  else fmtMoney (JNum x).
Proof.
  intros Hn Hnum Hx. unfold fmtMoney. rewrite Hn, Hx.
  cbn [isNullish ToNumber ToPrimitive bind].
  destruct (PrimFloat.ltb 999 x) eqn:Hgt.
  - rewrite (ltb_not_ge 999 x Hgt), andb_false_r. reflexivity.
  - destruct (PrimFloat.leb 1 x) eqn:H1; cbn [andb]; [|reflexivity].
    rewrite (not_gt_leb x H1 Hgt).
    destruct m; try reflexivity. exfalso. now apply (Hnum x0).
Qed.

(** A revenue that arrives as a string: in the billions it is formatted,
    in the millions it throws; so does [true], which converts to 1. *)
Lemma fmtMoney_of_non_number_witness :
  fmtMoney (JStr "48742") = Ok "$48.74B" /\
  fmtMoney (JStr "500") = Throw (TypeError "m.toFixed is not a function") /\
  fmtMoney (JBool true) = Throw (TypeError "m.toFixed is not a function") /\
  fmtMoney (JStr "n/a") = Ok "$NaNK".
Proof.
  split; [|split; [|split]].
  - rewrite (fmtMoney_of_non_number (JStr "48742") 48742%float);
      [vm_compute; reflexivity|reflexivity|discriminate|vm_compute; reflexivity].
  - rewrite (fmtMoney_of_non_number (JStr "500") 500%float);
      [vm_compute; reflexivity|reflexivity|discriminate|vm_compute; reflexivity].
  - rewrite (fmtMoney_of_non_number (JBool true) 1%float);
      [vm_compute; reflexivity|reflexivity|discriminate|vm_compute; reflexivity].
  - rewrite (fmtMoney_of_non_number (JStr "n/a") nan);
      [vm_compute; reflexivity|reflexivity|discriminate|vm_compute; reflexivity].
Defined.

(** ** Reports that are always formatted *)









(** ** The description *)

Lemma append_nil_r (s : string) : s ++ "" = s.
Proof. induction s as [|c s IH]; simpl; [reflexivity|now rewrite IH]. Qed.

Lemma lacks_app (c : ascii) (a b : string) :
  lacks c (a ++ b) = andb (lacks c a) (lacks c b).
Proof.
  induction a as [|x a IH]; [reflexivity|].
  simpl. rewrite IH. now rewrite andb_assoc.
Qed.

Lemma prefix_other (c x : ascii) (pat rest : string) :
  Ascii.eqb x c = false -> prefix (String c pat) (String x rest) = false.
Proof.
  intros H. simpl. destruct (ascii_dec c x) as [->|Hne]; [|reflexivity].
  rewrite Ascii.eqb_refl in H. discriminate H.
Qed.

Lemma replaceAll_cons (pat rep : string) (x : ascii) (r : string) :
  replaceAll 0 pat rep (String x r) =
  if prefix pat (String x r)
  then rep ++ replaceAll (String.length pat - 1) pat rep r
  else String x (replaceAll 0 pat rep r).
Proof. reflexivity. Qed.

Lemma replaceAll_skip (pat rep a b : string) :
  replaceAll (String.length a) pat rep (a ++ b) = replaceAll 0 pat rep b.
Proof. induction a as [|x a IH]; [reflexivity|exact IH]. Qed.

Lemma replaceAnchors_cons (x : ascii) (r : string) :
  replaceAnchors 0 (String x r) =
  match anchor (String x r) with
  | Some (text, len) => "[" ++ text ++ "]" ++ replaceAnchors (len - 1) r
  | None => String x (replaceAnchors 0 r)
  end.
Proof. reflexivity. Qed.

Lemma replaceAnchors_skip (a b : string) :
  replaceAnchors (String.length a) (a ++ b) = replaceAnchors 0 b.
Proof. induction a as [|x a IH]; [reflexivity|exact IH]. Qed.

(** Text without ["<"] passes through both replacements untouched. *)
Lemma replaceAll_plain (rep a b : string) :
  lacks "<" a = true ->
  replaceAll 0 "<br />" rep (a ++ b) = a ++ replaceAll 0 "<br />" rep b.
Proof.
  induction a as [|x a IH]; intros H; [reflexivity|].
  cbn [lacks] in H. apply andb_true_iff in H. destruct H as [Hx Ha].
  apply negb_true_iff in Hx.
  change (String x a ++ b) with (String x (a ++ b)).
  rewrite replaceAll_cons.
  change "<br />" with (String "<" "br />") at 1.
  rewrite (prefix_other _ _ _ _ Hx), (IH Ha). reflexivity.
Qed.

Lemma replaceAnchors_plain (a b : string) :
  lacks "<" a = true -> replaceAnchors 0 (a ++ b) = a ++ replaceAnchors 0 b.
Proof.
  induction a as [|x a IH]; intros H; [reflexivity|].
  cbn [lacks] in H. apply andb_true_iff in H. destruct H as [Hx Ha].
  apply negb_true_iff in Hx.
  change (String x a ++ b) with (String x (a ++ b)).
  rewrite replaceAnchors_cons. unfold anchor.
  change "<a " with (String "<" "a ") at 1.
  rewrite (prefix_other _ _ _ _ Hx), (IH Ha). reflexivity.
Qed.

Lemma description_of_string (s : string) :
  description_of (JStr s) = Ok (replaceAnchors 0 (replaceAll 0 "<br />" newline s)).
Proof. destruct s; reflexivity. Qed.

(** X14. A summary without the character ["<"] becomes the description as
    it is. *)
Theorem plain_summary_is_kept (s : string) :
  lacks "<" s = true -> description_of (JStr s) = Ok s.
Proof.
  intros H. rewrite description_of_string.
  rewrite <- (append_nil_r s) at 1.
  rewrite (replaceAll_plain newline s "" H). cbn [replaceAll].
  rewrite (replaceAnchors_plain s "" H). cbn [replaceAnchors].
  now rewrite append_nil_r.
Qed.

Lemma plain_summary_is_kept_witness :
  description_of (JStr "HCA Healthcare (HCA) reported earnings of $6.84 per share.")
  = Ok "HCA Healthcare (HCA) reported earnings of $6.84 per share.".
Proof. apply plain_summary_is_kept. vm_compute. reflexivity. Defined.

(** X15. The first line break of a summary, with nothing but plain text
    before it, becomes a newline, the text before it is kept, and what
    follows it is rewritten as a summary of its own. *)
Theorem line_break_becomes_newline (pre post : string) :
  lacks "<" pre = true ->
  description_of (JStr (pre ++ "<br />" ++ post)) =
  (rest <- description_of (JStr post) ;; Ok (pre ++ newline ++ rest)).
Proof.
  intros H. rewrite !description_of_string. cbn [bind].
  rewrite (replaceAll_plain newline pre _ H).
  change ("<br />" ++ post) with (String "<" ("br />" ++ post)).
  rewrite replaceAll_cons.
  assert (prefix "<br />" (String "<" ("br />" ++ post)) = true) as ->
    by (apply prefix_app; exists post; reflexivity).
  change (String.length "<br />" - 1)%nat with (String.length "br />").
  rewrite replaceAll_skip.
  rewrite (replaceAnchors_plain pre _ H).
  change (newline ++ ?x) with (String (ascii_of_nat 10) x).
  rewrite replaceAnchors_cons. reflexivity.
Qed.

Lemma line_break_becomes_newline_witness :
  lacks "<" "Revenue grew 6.36%." = true /\
  description_of (JStr ("Revenue grew 6.36%." ++ "<br />" ++ "HCA operates hospitals."))
  = Ok ("Revenue grew 6.36%." ++ newline ++ "HCA operates hospitals.").
Proof.
  split; [reflexivity|].
  rewrite (line_break_becomes_newline "Revenue grew 6.36%."
             "HCA operates hospitals." eq_refl).
  vm_compute. reflexivity.
Defined.


Lemma append_assoc (a b c : string) : (a ++ b) ++ c = a ++ b ++ c.
Proof. induction a as [|x a IH]; simpl; [reflexivity|now rewrite IH]. Qed.

Lemma substring_all (s : string) : substring 0 (String.length s) s = s.
Proof. induction s as [|c s IH]; simpl; [reflexivity|now rewrite IH]. Qed.

Lemma drop_app (a b : string) : Num.drop (String.length a) (a ++ b) = b.
Proof.
  unfold Num.drop. rewrite length_app.
  replace (String.length a + String.length b - String.length a)%nat
    with (String.length b) by lia.
  induction a as [|x a IH]; simpl; [apply substring_all|exact IH].
Qed.

Lemma run_until_stop (c : ascii) (a r : string) :
  lacks c a = true -> run_until c (a ++ String c r) = (a, String c r).
Proof.
  induction a as [|x a IH]; intros H.
  - simpl. now rewrite Ascii.eqb_refl.
  - cbn [lacks] in H. apply andb_true_iff in H. destruct H as [Hx Ha].
    apply negb_true_iff in Hx. simpl. rewrite Hx, (IH Ha). reflexivity.
Qed.

Lemma anchor_match (attrs text rest : string) :
  attrs <> "" -> lacks ">" attrs = true ->
  text <> "" -> lacks "<" text = true ->
  anchor ("<a " ++ attrs ++ ">" ++ text ++ "</a>" ++ rest) =
  Some (text, (3 + String.length attrs + 1 + String.length text + 4)%nat).
Proof.
  intros Hattrs Hgt Htext Hlt. unfold anchor.
  assert (prefix "<a " ("<a " ++ attrs ++ ">" ++ text ++ "</a>" ++ rest) = true)
    as -> by (apply prefix_app; eexists; reflexivity).
  rewrite (drop_app "<a " _).
  change (">" ++ text ++ "</a>" ++ rest)
    with (String ">" (text ++ "</a>" ++ rest)).
  rewrite (run_until_stop ">" attrs _ Hgt).
  destruct attrs as [|a0 attrs]; [contradiction Hattrs; reflexivity|].
  change ("</a>" ++ rest) with (String "<" ("/a>" ++ rest)).
  rewrite (run_until_stop "<" text _ Hlt).
  destruct text as [|t0 text]; [contradiction Htext; reflexivity|].
  assert (prefix "</a>" (String "<" ("/a>" ++ rest)) = true) as ->
    by (apply prefix_app; exists rest; reflexivity).
  reflexivity.
Qed.

(** X16. The first link of a summary, with nothing but plain text before
    it, is replaced by its text in square brackets: the text before it is
    kept, the address is dropped, and what follows the link is rewritten as
    a summary of its own. *)
Theorem link_becomes_bracketed_text (pre attrs text post : string) :
  lacks "<" pre = true ->
  attrs <> "" -> lacks "<" attrs = true -> lacks ">" attrs = true ->
  text <> "" -> lacks "<" text = true ->
  description_of (JStr (pre ++ "<a " ++ attrs ++ ">" ++ text ++ "</a>" ++ post)) =
  (rest <- description_of (JStr post) ;; Ok (pre ++ "[" ++ text ++ "]" ++ rest)).
Proof.
  intros Hpre Hattrs Hattrs_lt Hattrs_gt Htext Htext_lt.
  rewrite !description_of_string. cbn [bind].
  rewrite (replaceAll_plain newline pre _ Hpre).
  assert (forall y, replaceAll 0 "<br />" newline ("<a " ++ y)
                    = "<a " ++ replaceAll 0 "<br />" newline y) as Hopen
    by reflexivity.
  assert (forall y, replaceAll 0 "<br />" newline (">" ++ y)
                    = ">" ++ replaceAll 0 "<br />" newline y) as Hmid
    by reflexivity.
  assert (forall y, replaceAll 0 "<br />" newline ("</a>" ++ y)
                    = "</a>" ++ replaceAll 0 "<br />" newline y) as Hclose
    by reflexivity.
  rewrite Hopen, (replaceAll_plain newline attrs _ Hattrs_lt), Hmid,
    (replaceAll_plain newline text _ Htext_lt), Hclose.
  rewrite (replaceAnchors_plain pre _ Hpre).
  set (tail := replaceAll 0 "<br />" newline post).
  change ("<a " ++ attrs ++ ">" ++ text ++ "</a>" ++ tail)
    with (String "<" ("a " ++ attrs ++ ">" ++ text ++ "</a>" ++ tail)).
  rewrite replaceAnchors_cons.
  change (String "<" ("a " ++ attrs ++ ">" ++ text ++ "</a>" ++ tail))
    with ("<a " ++ attrs ++ ">" ++ text ++ "</a>" ++ tail).
  rewrite (anchor_match attrs text tail Hattrs Hattrs_gt Htext Htext_lt).
  assert ("a " ++ attrs ++ ">" ++ text ++ "</a>" ++ tail
          = ("a " ++ attrs ++ ">" ++ text ++ "</a>") ++ tail) as ->.
  { symmetry. rewrite !append_assoc. reflexivity. }
  replace (3 + String.length attrs + 1 + String.length text + 4 - 1)%nat
    with (String.length ("a " ++ attrs ++ ">" ++ text ++ "</a>")).
  - rewrite replaceAnchors_skip. reflexivity.
  - rewrite !length_app. simpl. lia.
Qed.

Lemma link_becomes_bracketed_text_witness :
  description_of
    (JStr ("The company said during its " ++ "<a "
           ++ "href=https://app.webinar.net/NR6KbwxLVn8" ++ ">"
           ++ "conference call" ++ "</a>" ++ " it expects more."))
  = Ok "The company said during its [conference call] it expects more.".
Proof.
  rewrite link_becomes_bracketed_text;
    [reflexivity | reflexivity | discriminate | reflexivity | reflexivity
    | discriminate | reflexivity].
Defined.


(* ================================================================== *)
(** * The ends of a run *)
(* ================================================================== *)

Lemma releases_app (a b : list Event) :
  releases (a ++ b) = (releases a + releases b)%nat.
Proof.
  induction a as [|ev a IH]; [reflexivity|].
  destruct ev; cbn [releases app]; rewrite IH; reflexivity.
Qed.

Lemma loop_keeps_webhook (w : World) (items : list JSValue) :
  forall k state final evs err,
    loop w k state items = (final, evs, err) -> releases evs = 0%nat.
Proof.
  induction items as [|x rest IH]; intros k state final evs err H.
  - injection H as <- <- <-. reflexivity.
  - loop_step H; cbn [releases]; try reflexivity; eauto.
Qed.

Lemma try_block_keeps_webhook (w : World) (state final : JSValue)
    (evs1 : list Event) (err : option JSError) :
  try_block w state = (final, evs1, err) -> releases evs1 = 0%nat.
Proof.
  unfold try_block. intros H.
  destruct (warmup w) as [[]|e].
  - destruct (todaysresults w) as [data|e].
    + destruct (iterate data) as [items|e].
      * destruct (loop w 0 state items) as [[f evs] er] eqn:Hl.
        injection H as <- <- <-. cbn [releases].
        exact (loop_keeps_webhook _ _ _ _ _ _ _ Hl).
      * injection H as <- <- <-. reflexivity.
    + injection H as <- <- <-. reflexivity.
  - injection H as <- <- <-. reflexivity.
Qed.

(** X17. A run that passes startup calls [webhook.destroy] exactly once,
    and as the last thing it does: after the state is written and the total
    is printed, or after an error that escaped [main] is reported. *)
Theorem webhook_released_once (w : World) :
  passesStartup w = true ->
  exists before,
    trace (script w) = (before ++ [Destroy])%list /\ releases before = 0%nat.
Proof.
  intros Hstart. rewrite (script_is_main w Hstart).
  destruct (loadState_total (readFile w)) as [state Hload].
  unfold main. rewrite Hload.
  destruct (try_block w state) as [[final evs1] err] eqn:Htry.
  pose proof (try_block_keeps_webhook _ _ _ _ _ Htry) as H1.
  assert (releases (catch_block err) = 0%nat) as H2 by (destruct err; reflexivity).
  unfold finally_block, saveState.
  destruct (writeFile w final) as [[]|e];
    [destruct (totalLine final) as [line|e]|]; cbn [trace].
  - exists (evs1 ++ catch_block err ++ [Saving; WriteFile final; StateSaved; Total line])%list.
    split; [now rewrite <- !app_assoc|].
    rewrite !releases_app, H1, H2. reflexivity.
  - exists (evs1 ++ catch_block err
            ++ [Saving; WriteFile final; StateSaved; ConsoleError e])%list.
    split; [now rewrite <- !app_assoc|].
    rewrite !releases_app, H1, H2. reflexivity.
  - exists (evs1 ++ catch_block err ++ [Saving; WriteFile final; ConsoleError e])%list.
    split; [now rewrite <- !app_assoc|].
    rewrite !releases_app, H1, H2. reflexivity.
Qed.

Lemma webhook_released_once_witness :
  exists before,
    trace (script write_fails) = (before ++ [Destroy])%list /\
    releases before = 0%nat.
Proof. apply webhook_released_once. reflexivity. Defined.

(** X18. A run that does not pass startup, for want of the webhook URL or
    because the client cannot be built, ends with exit code 1 and has
    requested, sent, written and released nothing. *)
Theorem startup_failure_does_nothing (w : World) :
  passesStartup w = false ->
  exitCode (script w) = 1 /\
  gets (trace (script w)) = [] /\
  sends (trace (script w)) = [] /\
  persisted (trace (script w)) = [] /\
  releases (trace (script w)) = 0%nat.
Proof.
  unfold passesStartup, script.
  destruct (DISCORD_EARNINGS_WEBHOOK w) as [[|c s]|];
    [ | destruct (newWebhookClient w); [discriminate|] | ];
    intros _; repeat split.
Qed.

Lemma startup_failure_does_nothing_witness :
  exitCode (script no_webhook) = 1 /\
  gets (trace (script no_webhook)) = [] /\
  sends (trace (script no_webhook)) = [] /\
  persisted (trace (script no_webhook)) = [] /\
  releases (trace (script no_webhook)) = 0%nat.
Proof. apply startup_failure_does_nothing. reflexivity. Defined.

(** X19. When the state file holds [null], the run sends nothing, writes
    [null] back, and ends with exit code 1, whatever the feed holds: reading
    [state.length] throws after the write. *)
Theorem null_state_is_fatal (w : World) :
  passesStartup w = true ->
  loadState (readFile w) = Ok JNull ->
  sends (trace (script w)) = [] /\
  persisted (trace (script w)) = [JNull] /\
  exitCode (script w) = 1.
Proof.
  intros Hstart Hload. rewrite (script_is_main w Hstart).
  unfold main. rewrite Hload.
  destruct (try_block w JNull) as [[final evs1] err] eqn:Htry.
  assert (final = JNull /\ sends evs1 = [] /\ persisted evs1 = []) as (-> & Hs & Hp).
  { destruct (try_block_cases _ _ _ _ _ Htry)
      as [(-> & Hs1 & _ & Hp1 & _) | (data & items & evs & _ & _ & _ & Hl & ->)];
      [auto|].
    destruct (loop_without_array w items 0 JNull) as [err' Hl'];
      [intros st; discriminate|].
    rewrite Hl' in Hl. injection Hl as <- <- <-. auto. }
  destruct (catch_quiet err) as (Hs' & _ & Hp').
  unfold finally_block, saveState.
  destruct (writeFile w JNull) as [[]|e]; cbn [totalLine lengthOf getProp bind trace exitCode];
    rewrite !sends_app, !persisted_app, Hs, Hs', Hp, Hp'; auto.
Qed.

Lemma null_state_is_fatal_witness :
  sends (trace (script null_state)) = [] /\
  persisted (trace (script null_state)) = [JNull] /\
  exitCode (script null_state) = 1.
Proof.
  apply null_state_is_fatal; [reflexivity | vm_compute; reflexivity].
Defined.

(* ================================================================== *)
(** * The layout of a notification *)
(* ================================================================== *)

(** X20. Every notification has the same frame: the colour 0x1abc9c, the
    footer, the twelve fields of [field_names] in that order, all of them
    inline, and the address of the details page of the ticker. *)
Theorem embed_layout (h : Host) (item : JSValue) (e : Embed) :
  format h item = Ok e ->
  color e = 1752220 /\
  footer e = "Source: Earnings Whispers" /\
  map name (fields e) = field_names /\
  forallb inline (fields e) = true /\
  exists ticker,
    ToString (field item "ticker") = Ok ticker /\
    url e = "https://www.earningswhispers.com/epsdetails/" ++ ticker.
Proof.
  intros H. unfold format in H.
  invert_bind H.
  destruct (getProp item "ticker") as [ticker|] eqn:Hticker;
    cbn [bind] in H; [|discriminate H].
  destruct (ToString ticker) as [t|] eqn:Ht; cbn [bind] in H; [|discriminate H].
  repeat invert_bind H. injection H as <-. cbn.
  repeat split.
  exists t. rewrite (field_of_getProp _ _ _ Hticker). auto.
Qed.

Lemma embed_layout_witness :
  exists e,
    format (mkHost plain_date 0) CNC = Ok e /\
    map name (fields e) = field_names /\
    url e = "https://www.earningswhispers.com/epsdetails/CNC".
Proof.
  destruct (format (mkHost plain_date 0) CNC) as [e|err] eqn:H;
    [|vm_compute in H; discriminate H].
  exists e. split; [reflexivity|].
  destruct (embed_layout _ _ _ H) as (_ & _ & Hn & _ & t & Ht & Hu).
  split; [exact Hn|].
  vm_compute in Ht. injection Ht as <-. exact Hu.
Defined.
